(** * Document ingestion and AI search lambdas: a shallow embedding

    Models [src/lambdas/document_ingestion/index.py] (key decoding,
    [extract_text_from_docx], [extract_text_from_file], [lambda_handler])
    and [generate_response] of [src/lambdas/ai_search/index.py].

    Strings are byte strings ([String.string], one [ascii] per byte): an S3
    key is the UTF-8 encoding of the object name.  The percent-decoded key
    is modelled as the decoded byte string; Python decodes those bytes
    as UTF-8 with [errors='replace'], which is the identity on
    the valid UTF-8 keys S3 delivers. *)

From Stdlib Require Import String Ascii List Bool Arith Lia ZArith.
Import ListNotations.
Open Scope string_scope.

(* ------------------------------------------------------------------ *)
(** ** Python string helpers *)

(** [s.split(sep)] for a one-character separator: never empty. *)
Fixpoint py_split (sep : ascii) (s : string) : list string :=
  match s with
  | EmptyString => [EmptyString]
  | String c t =>
      if Ascii.eqb c sep then EmptyString :: py_split sep t
      else match py_split sep t with
           | w :: ws => String c w :: ws
           | [] => [String c EmptyString]
           end
  end.

(** [xs[-1]] on the (non-empty) result of [split]. *)
Definition py_last (xs : list string) : string := last xs EmptyString.

(** [s.lower()] on the ASCII letters; every other byte is kept.  Python
    also lowers the non-ASCII cased letters of the decoded key (the
    Kelvin sign to ['k'], a capital sigma to a small or, at the end of a
    word, a final sigma, ...), so [file_ext_of] below is exact for keys whose extension is
    ASCII.  The dispatch on the extension lists is exact for every key:
    no non-ASCII letter lowers to a string made of the letters of
    [txt json md docx doc pdf png jpg jpeg]. *)
Definition lower_ascii (c : ascii) : ascii :=
  let n := nat_of_ascii c in
  if (65 <=? n)%nat && (n <=? 90)%nat then ascii_of_nat (n + 32)%nat else c.

Fixpoint py_lower (s : string) : string :=
  match s with
  | EmptyString => EmptyString
  | String c t => String (lower_ascii c) (py_lower t)
  end.

(** [s.replace(old, new)] for one-character [old] and [new]. *)
Fixpoint py_replace_char (old new : ascii) (s : string) : string :=
  match s with
  | EmptyString => EmptyString
  | String c t =>
      String (if Ascii.eqb c old then new else c) (py_replace_char old new t)
  end.

(** Python truthiness of a string. *)
Definition py_truthy (s : string) : bool :=
  match s with EmptyString => false | _ => true end.

Fixpoint py_in (x : string) (xs : list string) : bool :=
  match xs with
  | [] => false
  | y :: ys => String.eqb x y || py_in x ys
  end.

(* ------------------------------------------------------------------ *)
(** ** [urllib.parse.unquote_plus] *)

(** The hex digits of [_hextobyte]: [0-9], [A-F], [a-f]. *)
Definition hexval (c : ascii) : option nat :=
  let n := nat_of_ascii c in
  if (48 <=? n)%nat && (n <=? 57)%nat then Some (n - 48)%nat
  else if (65 <=? n)%nat && (n <=? 70)%nat then Some (n - 55)%nat
  else if (97 <=? n)%nat && (n <=? 102)%nat then Some (n - 87)%nat
  else None.

(** [unquote]: each [%XX] with two hex digits becomes the byte [0xXX];
    any other [%] is kept as it is ([unquote_to_bytes]). *)
Fixpoint unquote (s : string) : string :=
  match s with
  | EmptyString => EmptyString
  | String c t =>
      if Ascii.eqb c "%"%char then
        match t with
        | String h1 (String h2 rest) =>
            match hexval h1, hexval h2 with
            | Some a, Some b => String (ascii_of_nat (a * 16 + b)%nat) (unquote rest)
            | _, _ => String c (unquote t)
            end
        | _ => String c (unquote t)
        end
      else String c (unquote t)
  end.

(** [unquote_plus(s) = unquote(s.replace('+', ' '))]. *)
Definition unquote_plus (s : string) : string :=
  unquote (py_replace_char "+"%char " "%char s).

(** [decoded_key.split('.')[-1].lower()] *)
Definition file_ext_of (decoded_key : string) : string :=
  py_lower (py_last (py_split "."%char decoded_key)).

(** [decoded_key.split('/')[-1]] *)
Definition title_of (decoded_key : string) : string :=
  py_last (py_split "/"%char decoded_key).

Definition text_exts := ["txt"; "json"; "md"].
Definition office_exts := ["docx"; "doc"].
Definition image_exts := ["pdf"; "png"; "jpg"; "jpeg"].

(* ------------------------------------------------------------------ *)
(** ** Effects: state, Python exceptions and fuel *)

(** A document as built by [lambda_handler]. *)
Record document := mkDocument {
  content : string;
  title : string;
  document_id : string;
  file_type : string;
  upload_date : string;
  last_modified : string
}.

(** A Textract block and a [get_document_analysis] response. *)
Record block := mkBlock { block_type : string; block_text : string }.

Record tx_response := mkTxResponse {
  job_status : string;
  blocks : list block;
  next_token : option string;      (* ['NextToken' in response] *)
  status_message : option string   (* [response.get('StatusMessage')] *)
}.

(** The outcome of a Python call: a value or a raised exception,
    represented by [str(e)]. *)
Inductive res (A : Type) : Type :=
| Ok (a : A)
| Exc (msg : string).
Arguments Ok {A} a.
Arguments Exc {A} msg.

(** The calls made to the outside world, in order. *)
Inductive call : Type :=
| GetObject (bucket key : string)
| RunPandoc (input : string)
| StartAnalysis (bucket key : string)
| GetAnalysis (job : string) (token : option string)
| Sleep (secs : nat)
| HeadObject (bucket key : string)
| IndexPut (id : string) (doc : document).

(** [trace]: calls made so far; [gets]: number of [get_document_analysis]
    calls made so far (the job's answers change over time);
    [index]: the [enterprise-docs] index, id to document. *)
Record st := mkSt {
  trace : list call;
  gets : nat;
  index : list (string * document)
}.

(** A computation: [None] when it does not finish within the fuel it was
    given (the loops of [extract_text_from_file] are unbounded). *)
Definition M (A : Type) : Type := st -> option (res A * st).

Definition ret {A} (a : A) : M A := fun s => Some (Ok a, s).

Definition bind {A B} (m : M A) (k : A -> M B) : M B :=
  fun s => match m s with
           | Some (Ok a, s') => k a s'
           | Some (Exc e, s') => Some (Exc e, s')
           | None => None
           end.

Definition raise {A} (e : string) : M A := fun s => Some (Exc e, s).

(** [try: m  except Exception as e: h(str(e))] *)
Definition try_except {A} (m : M A) (h : string -> M A) : M A :=
  fun s => match m s with
           | Some (Exc e, s') => h e s'
           | r => r
           end.

Definition diverge {A} : M A := fun _ => None.

Definition lift {A} (r : res A) : M A := fun s => Some (r, s).

Definition push (c : call) (s : st) : st :=
  mkSt (trace s ++ [c])%list (gets s) (index s).

Definition emit (c : call) : M unit := fun s => Some (Ok tt, push c s).

Notation "x <- c1 ;; c2" := (bind c1 (fun x => c2))
  (at level 61, c1 at next level, right associativity).
Notation "c1 ;; c2" := (bind c1 (fun _ => c2))
  (at level 61, right associativity).

(** [index(id=..., body=...)] overwrites the entry with the same id. *)
Fixpoint upsert (id : string) (d : document) (ix : list (string * document))
  : list (string * document) :=
  match ix with
  | [] => [(id, d)]
  | (i, d0) :: ix' =>
      if String.eqb i id then (id, d) :: ix' else (i, d0) :: upsert id d ix'
  end.

Fixpoint lookup_doc (id : string) (ix : list (string * document)) : option document :=
  match ix with
  | [] => None
  | (i, d) :: ix' => if String.eqb i id then Some d else lookup_doc id ix'
  end.

(** The collaborators: S3, UTF-8 decoding of the body, pandoc, Textract,
    OpenSearch (including [get_opensearch_client]) and the clock. *)
Record env := mkEnv {
  s3_get_object : string -> string -> res string;
  utf8_decode : string -> res string;
  pandoc : string -> res (Z * string * string);   (* returncode, stdout, stderr *)
  tx_start : string -> string -> res string;      (* JobId *)
  tx_get : nat -> string -> option string -> res tx_response;
  s3_head : string -> string -> res string;       (* LastModified.isoformat() *)
  os_index : string -> document -> res unit;
  utcnow : string;                                 (* datetime.utcnow().isoformat() *)
  boto_client : nat -> string -> res unit          (* boto3.client(service) at a source line *)
}.

Definition nl : string := String (ascii_of_nat 10) EmptyString.

(* ------------------------------------------------------------------ *)
(** ** [src/lambdas/document_ingestion/index.py] *)

Section Ingestion.

Variable E : env.

Definition get_object (bucket key : string) : M string :=
  emit (GetObject bucket key) ;; lift (s3_get_object E bucket key).

Definition run_pandoc (input : string) : M (Z * string * string) :=
  emit (RunPandoc input) ;; lift (pandoc E input).

Definition start_document_analysis (bucket key : string) : M string :=
  emit (StartAnalysis bucket key) ;; lift (tx_start E bucket key).

Definition get_document_analysis (job : string) (token : option string) : M tx_response :=
  fun s => Some (tx_get E (gets s) job token,
                 mkSt (trace s ++ [GetAnalysis job token])%list (S (gets s)) (index s)).

Definition head_object (bucket key : string) : M string :=
  emit (HeadObject bucket key) ;; lift (s3_head E bucket key).

(** [boto3.client(service)] at source line [line]: the client, or the
    exception raised while building it (no region configured, an unknown
    profile, ...).  Building a client calls no service. *)
Definition new_client (line : nat) (service : string) : M unit :=
  lift (boto_client E line service).

Definition opensearch_index (id : string) (doc : document) : M unit :=
  fun s =>
    let s1 := push (IndexPut id doc) s in
    match os_index E id doc with
    | Ok _ => Some (Ok tt, mkSt (trace s1) (gets s1) (upsert id doc (index s1)))
    | Exc e => Some (Exc e, s1)
    end.

(** [extract_text_from_docx]: [None] on a nonzero pandoc exit code and on
    any exception. *)
Definition extract_text_from_docx (bucket original_key : string) : M (option string) :=
  try_except
    (body <- get_object bucket original_key ;;
     result <- run_pandoc body ;;
     let '(returncode, stdout, _) := result in
     if Z.eqb returncode 0 then ret (Some stdout) else ret None)
    (fun _ => ret None).

Definition is_terminal (status : string) : bool :=
  py_in status ["SUCCEEDED"; "FAILED"].

(** [while True: ... if status in ['SUCCEEDED', 'FAILED']: break;
    time.sleep(3)]; returns the last response. *)
Fixpoint poll_loop (fuel : nat) (job : string) : M tx_response :=
  match fuel with
  | O => diverge
  | S fuel' =>
      response <- get_document_analysis job None ;;
      if is_terminal (job_status response) then ret response
      else (emit (Sleep 3) ;; poll_loop fuel' job)
  end.

(** The texts of the [LINE] blocks, in order. *)
Definition line_texts (bs : list block) : list string :=
  map block_text (filter (fun b => String.eqb (block_type b) "LINE") bs).

(** [if next_token:] passes the token only when it is a non-empty string. *)
Definition token_arg (t : option string) : option string :=
  match t with
  | Some x => if py_truthy x then Some x else None
  | None => None
  end.

(** The page loop: [text_content] accumulates the line texts. *)
Fixpoint page_loop (fuel : nat) (job : string) (next : option string)
    (text_content : list string) : M (list string) :=
  match fuel with
  | O => diverge
  | S fuel' =>
      response <- get_document_analysis job (token_arg next) ;;
      let text_content' := (text_content ++ line_texts (blocks response))%list in
      match next_token response with
      | Some t => page_loop fuel' job (Some t) text_content'
      | None => ret text_content'
      end
  end.

(** [response.get('StatusMessage', 'Unknown error')] *)
Definition error_message_of (response : tx_response) : string :=
  match status_message response with Some m => m | None => "Unknown error" end.

(** The Textract branch of [extract_text_from_file] (lines 95-151). *)
Definition analyze_document (fuel : nat) (bucket original_key : string) : M string :=
  job_id <- start_document_analysis bucket original_key ;;
  response <- poll_loop fuel job_id ;;
  if String.eqb (job_status response) "SUCCEEDED" then
    text_content <- page_loop fuel job_id None [] ;;
    ret (String.concat nl text_content)
  else
    ret ("Error processing document: " ++ error_message_of response).

Definition textract_fallback (fuel : nat) (bucket original_key : string)
    (content : option string) : M string :=
  match content with
  | Some c => if py_truthy c then ret c else analyze_document fuel bucket original_key
  | None => analyze_document fuel bucket original_key
  end.

(** The [try] statement of [extract_text_from_file] (lines 73-159). *)
Definition extract_try (fuel : nat) (bucket original_key decoded_key : string) : M string :=
  try_except
    (let file_ext := file_ext_of decoded_key in
     if py_in file_ext text_exts then
       response <- get_object bucket original_key ;;
       lift (utf8_decode E response)
     else if py_in file_ext office_exts then
       content <- extract_text_from_docx bucket original_key ;;
       textract_fallback fuel bucket original_key content
     else if py_in file_ext image_exts then
       analyze_document fuel bucket original_key
     else ret ("Unsupported file type: " ++ file_ext))
    (fun e => ret e).

(** [extract_text_from_file]: the two clients are built (lines 70-71)
    before the [try]; [unquote_plus] of a [str] does not raise. *)
Definition extract_text_from_file (fuel : nat) (bucket key : string) : M string :=
  let original_key := key in
  let decoded_key := unquote_plus key in
  new_client 70 "textract" ;;
  new_client 71 "s3" ;;
  extract_try fuel bucket original_key decoded_key.

(** The document assembled at lines 190-197. *)
Definition make_document (key content last_modified : string) : document :=
  let decoded_key := unquote_plus key in
  mkDocument content (title_of decoded_key) key (file_ext_of decoded_key)
    (utcnow E) last_modified.

(** The body of the [for record in event['Records']] loop. *)
Definition process_record (fuel : nat) (record : string * string) : M unit :=
  let '(bucket, key) := record in
  content <- extract_text_from_file fuel bucket key ;;
  if negb (py_truthy content) then ret tt
  else
    new_client 179 "s3" ;;
    last_modified <- try_except (head_object bucket key) (fun _ => ret (utcnow E)) ;;
    opensearch_index key (make_document key content last_modified).

Fixpoint process_records (fuel : nat) (records : list (string * string)) : M unit :=
  match records with
  | [] => ret tt
  | r :: rs => process_record fuel r ;; process_records fuel rs
  end.

(** [lambda_handler]: status code and the (unencoded) body message. *)
Definition lambda_handler (fuel : nat) (records : list (string * string)) : M (Z * string) :=
  try_except
    (process_records fuel records ;; ret (200%Z, "Document processing complete"))
    (fun e => ret (500%Z, "Error processing document: " ++ e)).

End Ingestion.

(* ------------------------------------------------------------------ *)
(** ** [generate_response] of [src/lambdas/ai_search/index.py] *)

Module AiSearch.

(** [doc['_source']] of a search hit: its title and content fields. *)
Record source := mkSource { src_title : option string; src_content : option string }.

(** An element of [response_body['content']]: its ['type'] and ['text']. *)
Record content_item := mkItem { item_type : option string; item_text : string }.

(** What one [bedrock_client.invoke_model] attempt does, up to the end of
    the [try] block: a parsed body ([None] when ['content'] is absent or
    not a list), an exception caught by the [except] clause
    ([ClientError], [boto3.exceptions.Boto3Error]), or any other
    exception (e.g. a botocore [EndpointConnectionError], a JSON decode
    error), which the [except] clause does not catch. *)
Inductive outcome : Type :=
| Body (content : option (list content_item))
| ClientError (msg : string)
| Boto3Error (msg : string)
| OtherError (msg : string).

Inductive event : Type :=
| Invoke (attempt : nat)
| Backoff (secs : nat).

Fixpoint first_text (items : list content_item) : option string :=
  match items with
  | [] => None
  | i :: is =>
      match item_type i with
      | Some t => if String.eqb t "text" then Some (item_text i) else first_text is
      | None => first_text is
      end
  end.

Definition parse_body (c : option (list content_item)) : string :=
  match c with
  | Some items =>
      match first_text items with
      | Some t => t
      | None => "Error: Unable to parse model response."
      end
  | None => "Error: Unable to parse model response."
  end.

(** [for attempt in range(max_retries)], from [attempt] on with
    [remaining] iterations left. *)
Fixpoint retry_loop (invoke : nat -> outcome) (max_retries attempt remaining : nat)
  : res string * list event :=
  match remaining with
  | O => (Ok "Error: No valid response from Bedrock AI.", [])
  | S remaining' =>
      match invoke attempt with
      | Body c => (Ok (parse_body c), [Invoke attempt])
      | ClientError _ | Boto3Error _ =>
          if Nat.eqb attempt (max_retries - 1) then
            (Ok "Error generating response from Bedrock.", [Invoke attempt])
          else
            let '(r, evs) := retry_loop invoke max_retries (S attempt) remaining' in
            (r, Invoke attempt :: Backoff (2 ^ attempt) :: evs)
      | OtherError m => (Exc m, [Invoke attempt])
      end
  end.

(** [generate_response(query, retrieved_docs, max_retries)]: the attempt
    outcomes are given by [invoke]; a hit without ['_source'] ([None])
    raises [KeyError] while the context is built. *)
Definition generate_response (invoke : nat -> outcome)
    (retrieved_docs : list (option source)) (max_retries : nat)
  : res string * list event :=
  match retrieved_docs with
  | [] => (Ok "No relevant documents found.", [])
  | _ =>
      if existsb (fun d => match d with None => true | Some _ => false end) retrieved_docs
      then (Exc "'_source'", [])
      else retry_loop invoke max_retries 0 max_retries
  end.

(** Exceptions caught by [except (ClientError, boto3.exceptions.Boto3Error)]. *)
Definition caught (o : outcome) : bool :=
  match o with ClientError _ | Boto3Error _ => true | _ => false end.

(** The events of [k] attempts: [Invoke 0], then for each further attempt
    [a + 1] the backoff [2 ^ a] before it. *)
Definition attempts (k : nat) : list event :=
  Invoke 0 :: flat_map (fun a => [Backoff (2 ^ a); Invoke (S a)]) (seq 0 (k - 1)).

Definition src0 : source := mkSource (Some "q1.txt") (Some "Revenue grew 10%.").

End AiSearch.

(* ------------------------------------------------------------------ *)
(** ** A concrete environment *)

Definition st0 : st := mkSt [] 0 [].

Definition failed_job : tx_response :=
  mkTxResponse "FAILED" [] None (Some "bad").

(** Every object reads as ["body"]; pandoc succeeds with empty output;
    every Textract job fails with message ["bad"]; OpenSearch rejects the
    document ["r2.txt"]. *)
Definition env0 : env :=
  mkEnv (fun _ _ => Ok "body")
        (fun b => Ok b)
        (fun _ => Ok (0%Z, "", ""))
        (fun _ _ => Ok "job1")
        (fun _ _ _ => Ok failed_job)
        (fun _ _ => Ok "2026-01-01T00:00:00")
        (fun id _ => if String.eqb id "r2.txt" then Exc "rejected" else Ok tt)
        "2026-10-19T00:00:00"
        (fun _ _ => Ok tt).

(** [last_modified] as computed at lines 180-187. *)
Definition lm_of (E : env) (bucket key : string) : string :=
  match s3_head E bucket key with Ok t => t | Exc _ => utcnow E end.

(** [env0] where every [head_object] call raises. *)
Definition env_nohead : env :=
  mkEnv (s3_get_object env0) (utf8_decode env0) (pandoc env0) (tx_start env0)
        (tx_get env0) (fun _ _ => Exc "AccessDenied") (os_index env0) (utcnow env0)
        (boto_client env0).

(** [P] holds of every call a computation appends to the trace. *)
Definition keeps {A} (P : call -> Prop) (m : M A) : Prop :=
  forall s r s', m s = Some (r, s') ->
  exists added, trace s' = (trace s ++ added)%list /\ Forall P added.

(** The calls of the record [(bucket, key)] that name an S3 object use the
    raw [key]; the document put into the index is the one assembled from
    [key] (id, title and file type from [key] and [unquote_plus key]). *)
Definition uses_raw_key (E : env) (bucket key : string) (c : call) : Prop :=
  match c with
  | GetObject b k | StartAnalysis b k | HeadObject b k => b = bucket /\ k = key
  | IndexPut id d => id = key /\ d = make_document E key (content d) (last_modified d)
  | _ => True
  end.

(** A Textract job whose answers, from the [n0]-th [get_document_analysis]
    call on, are the result pages [ps]: the request with [tok] returns the
    first of them, and each page's [NextToken] (a non-empty string) returns
    the next one; the last page has no [NextToken]. *)
Fixpoint serves_pages (E : env) (job : string) (n0 : nat) (tok : option string)
    (ps : list tx_response) : Prop :=
  match ps with
  | [] => False
  | p :: ps' =>
      (forall n, n0 <= n -> tx_get E n job tok = Ok p) /\
      match next_token p with
      | None => ps' = []
      | Some t => py_truthy t = true /\ serves_pages E job n0 (Some t) ps'
      end
  end.

(** The [get_document_analysis] calls that retrieve the pages [ps]. *)
Fixpoint page_calls (job : string) (tok : option string) (ps : list tx_response)
  : list call :=
  match ps with
  | [] => []
  | p :: ps' => GetAnalysis job tok :: page_calls job (next_token p) ps'
  end.

Definition page_lines (ps : list tx_response) : list string :=
  flat_map (fun p => line_texts (blocks p)) ps.

(** [k] non-terminal polls, each followed by [time.sleep(3)], then the
    terminal poll. *)
Definition poll_calls (job : string) (k : nat) : list call :=
  (concat (repeat [GetAnalysis job None; Sleep 3] k) ++ [GetAnalysis job None])%list.

Definition in_progress : tx_response := mkTxResponse "IN_PROGRESS" [] None None.

Definition page1 : tx_response :=
  mkTxResponse "SUCCEEDED"
    [mkBlock "PAGE" ""; mkBlock "LINE" "Revenue"; mkBlock "WORD" "Revenue"]
    (Some "t2") None.

Definition page2 : tx_response :=
  mkTxResponse "SUCCEEDED" [mkBlock "LINE" "grew 10%."] None None.

(** A job that is in progress at the first poll and then succeeds with the
    two pages [page1] and [page2]. *)
Definition env_pages : env :=
  mkEnv (s3_get_object env0) (utf8_decode env0) (pandoc env0) (tx_start env0)
        (fun n _ tok =>
           match tok with
           | None => if Nat.eqb n 0 then Ok in_progress else Ok page1
           | Some t => if String.eqb t "t2" then Ok page2
                       else Exc "InvalidParameterException"
           end)
        (s3_head env0) (os_index env0) (utcnow env0) (boto_client env0).

(** A job whose every page carries the empty [NextToken] [""]. *)
Definition env_emptytok : env :=
  mkEnv (s3_get_object env0) (utf8_decode env0) (pandoc env0) (tx_start env0)
        (fun _ _ _ => Ok (mkTxResponse "SUCCEEDED" [mkBlock "LINE" "x"] (Some "") None))
        (s3_head env0) (os_index env0) (utcnow env0) (boto_client env0).

(** Every object is empty. *)
Definition env_emptybody : env :=
  mkEnv (fun _ _ => Ok "") (utf8_decode env0) (pandoc env0) (tx_start env0)
        (tx_get env0) (s3_head env0) (os_index env0) (utcnow env0) (boto_client env0).

(** [start_document_analysis] raises. *)
Definition env_nostart : env :=
  mkEnv (s3_get_object env0) (utf8_decode env0) (pandoc env0)
        (fun _ _ => Exc "ProvisionedThroughputExceededException")
        (tx_get env0) (s3_head env0) (os_index env0) (utcnow env0) (boto_client env0).

(** Every [get_object] raises. *)
Definition env_noread : env :=
  mkEnv (fun _ _ => Exc "NoSuchKey") (utf8_decode env0) (pandoc env0) (tx_start env0)
        (tx_get env0) (s3_head env0) (os_index env0) (utcnow env0) (boto_client env0).

(** No region is configured: the first client cannot be built. *)
Definition env_noclient : env :=
  mkEnv (s3_get_object env0) (utf8_decode env0) (pandoc env0) (tx_start env0)
        (tx_get env0) (s3_head env0) (os_index env0) (utcnow env0)
        (fun _ _ => Exc "You must specify a region.").

(** Only the client of line 179 cannot be built. *)
Definition env_noclient179 : env :=
  mkEnv (s3_get_object env0) (utf8_decode env0) (pandoc env0) (tx_start env0)
        (tx_get env0) (s3_head env0) (os_index env0) (utcnow env0)
        (fun line _ => if Nat.eqb line 179 then Exc "You must specify a region." else Ok tt).

(** [m] changes no index entry except those whose id satisfies [ok]. *)
Definition index_only {A} (ok : string -> Prop) (m : M A) : Prop :=
  forall s r s', m s = Some (r, s') ->
  forall id, ~ ok id -> lookup_doc id (index s') = lookup_doc id (index s).

(** [True] when [c] occurs in [s]. *)
Fixpoint has_char (c : ascii) (s : string) : bool :=
  match s with
  | EmptyString => false
  | String c' t => Ascii.eqb c' c || has_char c t
  end.

(* ------------------------------------------------------------------ *)
(** ** [retrieve_docs] and [lambda_handler] of [src/lambdas/ai_search/index.py] *)

Module AiHandler.

(** What [client.search(...)] does: the hits [response["hits"]["hits"]],
    an [OpenSearchException], or any other exception (a missing key of the
    response included). *)
Inductive search_outcome : Type :=
| Hits (hs : list (option AiSearch.source))
| OpenSearchException (msg : string)
| SearchError (msg : string).

(** [retrieve_docs(query, client, max_results)]; [search] stands for the
    client, given the query and the [size]. *)
Definition retrieve_docs (search : string -> nat -> search_outcome)
    (query : string) (max_results : nat) : res (list (option AiSearch.source)) :=
  match search query max_results with
  | Hits hs => Ok hs
  | OpenSearchException _ => Ok []
  | SearchError m => Exc m
  end.

(** The calls the handler makes: a search, or an event of
    [generate_response]. *)
Inductive ai_call : Type :=
| Search (query : string) (size : nat)
| Gen (e : AiSearch.event).

(** The JSON body of the reply: [{"error": ...}] or
    [{"query": ..., "response": ..., "sources": ...}]. *)
Inductive reply : Type :=
| ErrorReply (msg : string)
| AnswerReply (query response : string) (sources : list (option AiSearch.source)).

(** [lambda_handler(event, context)].  [body] is [event.get("body")];
    [parse b] is [json.loads(b).get("query")] ([Exc] for a JSON error or a
    body that is not an object); [client] is [get_opensearch_client()]. *)
Definition lambda_handler (parse : string -> res (option string))
    (client : res unit) (search : string -> nat -> search_outcome)
    (invoke : nat -> AiSearch.outcome) (body : option string)
  : (Z * reply) * list ai_call :=
  match body with
  | None => ((400%Z, ErrorReply "Missing request body"), [])
  | Some b =>
      if negb (py_truthy b) then ((400%Z, ErrorReply "Missing request body"), [])
      else
        match parse b with
        | Exc e => ((500%Z, ErrorReply e), [])
        | Ok q =>
            let query := match q with Some x => x | None => EmptyString end in
            if negb (py_truthy query)
            then ((400%Z, ErrorReply "Missing 'query' parameter"), [])
            else
              match client with
              | Exc e => ((500%Z, ErrorReply e), [])
              | Ok _ =>
                  match retrieve_docs search query 5 with
                  | Exc e => ((500%Z, ErrorReply e), [Search query 5])
                  | Ok retrieved_docs =>
                      let '(r, evs) := AiSearch.generate_response invoke retrieved_docs 3 in
                      let calls := Search query 5 :: map Gen evs in
                      match r with
                      | Ok ai_response =>
                          ((200%Z, AnswerReply query ai_response retrieved_docs), calls)
                      | Exc e => ((500%Z, ErrorReply e), calls)
                      end
                  end
              end
        end
  end.

(** The events of the attempts [a], ..., [a + r - 1]. *)
Definition attempts_from (a r : nat) : list AiSearch.event :=
  AiSearch.Invoke a
    :: flat_map (fun i => [AiSearch.Backoff (2 ^ i); AiSearch.Invoke (S i)]) (seq a (r - 1)).

(** Which calls are model invocations, and which are searches. *)
Definition is_invoke (c : ai_call) : bool :=
  match c with Gen (AiSearch.Invoke _) => true | _ => false end.

Definition is_search (c : ai_call) : bool :=
  match c with Search _ _ => true | _ => false end.

(** [json.loads(b).get("query")] for three bodies: an empty object, a
    list (whose [.get] raises) and an object whose query is ["revenue"]. *)
Definition parse0 (b : string) : res (option string) :=
  if String.eqb b "{}" then Ok None
  else if String.eqb b "[]" then Exc "'list' object has no attribute 'get'"
  else Ok (Some "revenue").

(** A cluster that cannot be reached, and one whose second hit has no
    ['_source']. *)
Definition search_down (_ : string) (_ : nat) : search_outcome :=
  OpenSearchException "ConnectionTimeout".

Definition search_nosource (_ : string) (_ : nat) : search_outcome :=
  Hits [Some AiSearch.src0; None].

(** A model endpoint that always throttles. *)
Definition invoke_throttled (_ : nat) : AiSearch.outcome :=
  AiSearch.ClientError "ThrottlingException".

End AiHandler.

(** The calls that read the object's bytes: [get_object] and pandoc. *)
Definition reads_object (c : call) : bool :=
  match c with GetObject _ _ | RunPandoc _ => true | _ => false end.

(* ------------------------------------------------------------------ *)
(** ** Monad and store lemmas *)

Lemma bind_some_ok {A B} (m : M A) (k : A -> M B) s a s1 :
  m s = Some (Ok a, s1) -> bind m k s = k a s1.
Proof. unfold bind; intros ->; reflexivity. Qed.

Lemma bind_some_exc {A B} (m : M A) (k : A -> M B) s e s1 :
  m s = Some (Exc e, s1) -> bind m k s = Some (Exc e, s1).
Proof. unfold bind; intros ->; reflexivity. Qed.

Lemma lookup_upsert id d ix : lookup_doc id (upsert id d ix) = Some d.
Proof.
  induction ix as [|[i d0] ix IH]; simpl.
  - rewrite String.eqb_refl; reflexivity.
  - destruct (String.eqb i id) eqn:Hi; simpl.
    + rewrite String.eqb_refl; reflexivity.
    + rewrite Hi; exact IH.
Qed.

Lemma opensearch_index_ok E id d s :
  os_index E id d = Ok tt ->
  exists s', opensearch_index E id d s = Some (Ok tt, s') /\
             lookup_doc id (index s') = Some d.
Proof.
  intros H; unfold opensearch_index; rewrite H.
  eexists; split; [reflexivity|]; simpl; apply lookup_upsert.
Qed.

(** The metadata request never raises out of the record. *)
Lemma head_fallback E bucket key s :
  try_except (head_object E bucket key) (fun _ => ret (utcnow E)) s
  = Some (Ok (lm_of E bucket key), push (HeadObject bucket key) s).
Proof.
  unfold try_except, head_object, bind, emit, lift, lm_of, ret.
  destruct (s3_head E bucket key); reflexivity.
Qed.

Lemma process_record_empty E fuel bucket key s s1 :
  extract_text_from_file E fuel bucket key s = Some (Ok EmptyString, s1) ->
  process_record E fuel (bucket, key) s = Some (Ok tt, s1).
Proof. intros H; unfold process_record; rewrite (bind_some_ok _ _ _ _ _ H); reflexivity. Qed.

Lemma process_record_nonempty E fuel bucket key s c s1 :
  extract_text_from_file E fuel bucket key s = Some (Ok c, s1) ->
  py_truthy c = true ->
  boto_client E 179 "s3" = Ok tt ->
  process_record E fuel (bucket, key) s
  = opensearch_index E key (make_document E key c (lm_of E bucket key))
      (push (HeadObject bucket key) s1).
Proof.
  intros H Hc Hcl; unfold process_record; rewrite (bind_some_ok _ _ _ _ _ H).
  rewrite Hc; simpl; unfold bind at 1, new_client, lift; rewrite Hcl.
  rewrite (bind_some_ok _ _ _ _ _ (head_fallback E bucket key s1)); reflexivity.
Qed.

(** Once its two clients are built, [extract_text_from_file] is its [try]
    statement. *)
Lemma extract_text_from_file_try E fuel bucket key s :
  boto_client E 70 "textract" = Ok tt -> boto_client E 71 "s3" = Ok tt ->
  extract_text_from_file E fuel bucket key s = extract_try E fuel bucket key (unquote_plus key) s.
Proof.
  intros H70 H71; unfold extract_text_from_file, new_client, bind, lift.
  rewrite H70, H71; reflexivity.
Qed.

Lemma extract_try_no_exc E fuel bucket key dk s e s1 :
  extract_try E fuel bucket key dk s <> Some (Exc e, s1).
Proof.
  unfold extract_try, try_except.
  destruct (_ s) as [[[a|e'] s']|]; unfold ret; congruence.
Qed.

(** The only exceptions leaving [extract_text_from_file] are those of
    building its clients, before any call. *)
Lemma extract_text_from_file_exc E fuel bucket key s e s1 :
  extract_text_from_file E fuel bucket key s = Some (Exc e, s1) ->
  s1 = s /\
  (boto_client E 70 "textract" = Exc e \/
   (boto_client E 70 "textract" = Ok tt /\ boto_client E 71 "s3" = Exc e)).
Proof.
  unfold extract_text_from_file, new_client, bind, lift.
  destruct (boto_client E 70 "textract") as [[]|e70];
    [destruct (boto_client E 71 "s3") as [[]|e71]|]; intros H.
  - exfalso; exact (extract_try_no_exc E fuel bucket key _ s e s1 H).
  - injection H as -> ->; auto.
  - injection H as -> ->; auto.
Qed.

Lemma start_document_analysis_ok E bucket key s job :
  tx_start E bucket key = Ok job ->
  start_document_analysis E bucket key s = Some (Ok job, push (StartAnalysis bucket key) s).
Proof. intros H; unfold start_document_analysis, bind, emit, lift; rewrite H; reflexivity. Qed.

Lemma analyze_document_failed E fuel bucket key s job r s1 :
  tx_start E bucket key = Ok job ->
  poll_loop E fuel job (push (StartAnalysis bucket key) s) = Some (Ok r, s1) ->
  job_status r <> "SUCCEEDED" ->
  analyze_document E fuel bucket key s
  = Some (Ok ("Error processing document: " ++ error_message_of r), s1).
Proof.
  intros Hjob Hpoll Hst; unfold analyze_document.
  rewrite (bind_some_ok _ _ _ _ _ (start_document_analysis_ok E bucket key s job Hjob)).
  rewrite (bind_some_ok _ _ _ _ _ Hpoll).
  apply String.eqb_neq in Hst; rewrite Hst; reflexivity.
Qed.

Lemma process_records_app E fuel pre rest s s0 :
  process_records E fuel pre s = Some (Ok tt, s0) ->
  process_records E fuel (pre ++ rest) s = process_records E fuel rest s0.
Proof.
  revert s; induction pre as [|r pre IH]; intros s H; simpl in *.
  - unfold ret in H; congruence.
  - unfold bind in *. destruct (process_record E fuel r s) as [[[u|e] s1]|];
      try discriminate. destruct u. apply IH; exact H.
Qed.


(* ------------------------------------------------------------------ *)
(** ** Claims *)

(** Helper: a key whose extension is in none of the lists. *)
Lemma extract_try_unsupported E fuel bucket key s :
  py_in (file_ext_of (unquote_plus key)) text_exts = false ->
  py_in (file_ext_of (unquote_plus key)) office_exts = false ->
  py_in (file_ext_of (unquote_plus key)) image_exts = false ->
  extract_try E fuel bucket key (unquote_plus key) s
  = Some (Ok ("Unsupported file type: " ++ file_ext_of (unquote_plus key)), s).
Proof.
  intros H1 H2 H3; unfold extract_try, try_except; cbv zeta; rewrite H1, H2, H3.
  reflexivity.
Qed.

(** C4 (code bug).  The extension is taken as [decoded_key.split('.')[-1]],
    which is the whole decoded key when it holds no ['.']: the key ["txt"],
    which has no suffix, is read as a text file ([GetObject] is called and
    its body returned) instead of being unsupported; a key without ['.']
    that is not itself a listed extension is reported unsupported. *)
Lemma C4_key_without_dot_is_text :
  file_ext_of (unquote_plus "txt") = "txt" /\
  extract_text_from_file env0 5 "docs" "txt" st0
  = Some (Ok "body", mkSt [GetObject "docs" "txt"] 0 []) /\
  extract_text_from_file env0 5 "docs" "notes" st0
  = Some (Ok "Unsupported file type: notes", st0).
Proof. split; [reflexivity|split; reflexivity]. Qed.

(** C1 (corrected).  A failed extraction is no distinct outcome: once its
    clients are built, [extract_text_from_file] returns a non-empty
    message as the text, for an unsupported type, for a Textract job that
    ends other than [SUCCEEDED] (a [pdf]/image key, or a [docx]/[doc] key
    whose pandoc step gave no text) and for an S3 error on a text file.
    Every non-empty text, such a message included, is then assembled and
    committed to the index; only an empty text skips the record. *)
Theorem failure_message_is_indexed E fuel bucket key s :
  boto_client E 70 "textract" = Ok tt ->
  boto_client E 71 "s3" = Ok tt ->
  let ext := file_ext_of (unquote_plus key) in
  (py_in ext text_exts = false -> py_in ext office_exts = false ->
   py_in ext image_exts = false ->
   extract_text_from_file E fuel bucket key s
   = Some (Ok ("Unsupported file type: " ++ ext), s)) /\
  (forall s0 job r s1,
   py_in ext text_exts = false ->
   (py_in ext office_exts = false /\ py_in ext image_exts = true /\ s0 = s \/
    py_in ext office_exts = true /\
    exists c, extract_text_from_docx E bucket key s = Some (Ok c, s0) /\
              match c with Some t => py_truthy t = false | None => True end) ->
   tx_start E bucket key = Ok job ->
   poll_loop E fuel job (push (StartAnalysis bucket key) s0) = Some (Ok r, s1) ->
   job_status r <> "SUCCEEDED" ->
   extract_text_from_file E fuel bucket key s
   = Some (Ok ("Error processing document: " ++ error_message_of r), s1)) /\
  (forall e, py_in ext text_exts = true -> s3_get_object E bucket key = Exc e ->
   extract_text_from_file E fuel bucket key s
   = Some (Ok e, push (GetObject bucket key) s)) /\
  (forall c s1, extract_text_from_file E fuel bucket key s = Some (Ok c, s1) ->
   (py_truthy c = false -> process_record E fuel (bucket, key) s = Some (Ok tt, s1)) /\
   (py_truthy c = true -> boto_client E 179 "s3" = Ok tt ->
    os_index E key (make_document E key c (lm_of E bucket key)) = Ok tt ->
    exists s', process_record E fuel (bucket, key) s = Some (Ok tt, s') /\
               lookup_doc key (index s') = Some (make_document E key c (lm_of E bucket key)))).
Proof.
  intros H70 H71 ext; subst ext.
  rewrite !(extract_text_from_file_try E fuel bucket key s H70 H71).
  split; [|split; [|split]].
  - apply extract_try_unsupported.
  - intros s0 job r s1 Ht Hbranch Hjob Hpoll Hst.
    unfold extract_try; cbv zeta; rewrite Ht.
    destruct Hbranch as [[Ho [Hi ->]]|[Ho [c [Hdocx Hc]]]].
    + rewrite Ho, Hi; unfold try_except.
      rewrite (analyze_document_failed E fuel bucket key s job r s1 Hjob Hpoll Hst).
      reflexivity.
    + rewrite Ho; unfold try_except; rewrite (bind_some_ok _ _ _ _ _ Hdocx).
      destruct c as [t|]; unfold textract_fallback; [rewrite Hc|];
        rewrite (analyze_document_failed E fuel bucket key s0 job r s1 Hjob Hpoll Hst);
        reflexivity.
  - intros e Ht He; unfold extract_try, try_except, get_object, bind, emit, lift;
      cbv zeta; rewrite Ht, He; reflexivity.
  - intros c s1 Hx; rewrite <- (extract_text_from_file_try E fuel bucket key s H70 H71) in Hx.
    split.
    + intros Hc; destruct c; [|discriminate Hc].
      unfold process_record; rewrite (bind_some_ok _ _ _ _ _ Hx); reflexivity.
    + intros Hc H179 Hix.
      rewrite (process_record_nonempty E fuel bucket key s c s1 Hx Hc H179).
      apply opensearch_index_ok; exact Hix.
Qed.

Lemma failure_message_is_indexed_witness :
  extract_text_from_file env0 5 "docs" "notes.xyz" st0
  = Some (Ok "Unsupported file type: xyz", st0) /\
  extract_text_from_file env0 5 "docs" "report.docx" st0
  = Some (Ok "Error processing document: bad",
          mkSt [GetObject "docs" "report.docx"; RunPandoc "body";
                StartAnalysis "docs" "report.docx"; GetAnalysis "job1" None] 1 []) /\
  extract_text_from_file env_noread 5 "docs" "notes.txt" st0
  = Some (Ok "NoSuchKey", push (GetObject "docs" "notes.txt") st0) /\
  process_record env_emptybody 5 ("docs", "empty.txt") st0
  = Some (Ok tt, push (GetObject "docs" "empty.txt") st0) /\
  (exists s', process_record env0 5 ("docs", "report.docx") st0 = Some (Ok tt, s') /\
     lookup_doc "report.docx" (index s')
     = Some (make_document env0 "report.docx" "Error processing document: bad"
               "2026-01-01T00:00:00")).
Proof.
  split; [|split; [|split; [|split]]].
  - exact (proj1 (failure_message_is_indexed env0 5 "docs" "notes.xyz" st0 eq_refl eq_refl)
             eq_refl eq_refl eq_refl).
  - refine (proj1 (proj2 (failure_message_is_indexed env0 5 "docs" "report.docx" st0
                            eq_refl eq_refl))
              (mkSt [GetObject "docs" "report.docx"; RunPandoc "body"] 0 [])
              "job1" failed_job _ eq_refl _ eq_refl eq_refl _).
    + right; split; [reflexivity|]; exists (Some ""); split; reflexivity.
    + discriminate.
  - exact (proj1 (proj2 (proj2 (failure_message_is_indexed env_noread 5 "docs" "notes.txt" st0
                                  eq_refl eq_refl)))
             "NoSuchKey" eq_refl eq_refl).
  - exact (proj1 (proj2 (proj2 (proj2 (failure_message_is_indexed env_emptybody 5 "docs"
                                         "empty.txt" st0 eq_refl eq_refl)))
                    "" _ eq_refl) eq_refl).
  - exact (proj2 (proj2 (proj2 (proj2 (failure_message_is_indexed env0 5 "docs"
                                         "report.docx" st0 eq_refl eq_refl)))
                    "Error processing document: bad" _ eq_refl) eq_refl eq_refl eq_refl).
Defined.

(** C1 counterexample: a Textract job that ends [FAILED] still leaves a
    document in the index under the record's key. *)
Lemma C1_failed_job_is_indexed :
  exists s', process_record env0 5 ("docs", "scan.pdf") st0 = Some (Ok tt, s') /\
             lookup_doc "scan.pdf" (index s') <> None.
Proof. eexists; split; [reflexivity | simpl; congruence]. Qed.

(** C2 (corrected).  An exception leaving a record ends the [for] loop:
    the handler returns status 500 and the records after it are not
    processed (the final state is the one reached inside the failing
    record).  Such an exception comes from building a boto3 client
    outside a [try] (lines 70-71 of [extract_text_from_file], line 179)
    or from the index request, re-raised at line 214; every other error
    of the extraction is caught at line 157. *)
Theorem record_error_ends_batch E fuel :
  (forall pre r rest s s0 e s1,
     process_records E fuel pre s = Some (Ok tt, s0) ->
     process_record E fuel r s0 = Some (Exc e, s1) ->
     lambda_handler E fuel (pre ++ r :: rest) s
     = Some (Ok (500%Z, "Error processing document: " ++ e), s1)) /\
  (forall bucket key s e s1,
     extract_text_from_file E fuel bucket key s = Some (Exc e, s1) ->
     s1 = s /\
     (boto_client E 70 "textract" = Exc e \/
      (boto_client E 70 "textract" = Ok tt /\ boto_client E 71 "s3" = Exc e)) /\
     process_record E fuel (bucket, key) s = Some (Exc e, s)) /\
  (forall bucket key s c s1 e,
     extract_text_from_file E fuel bucket key s = Some (Ok c, s1) ->
     py_truthy c = true ->
     boto_client E 179 "s3" = Exc e ->
     process_record E fuel (bucket, key) s = Some (Exc e, s1)) /\
  (forall bucket key s c s1 e,
     extract_text_from_file E fuel bucket key s = Some (Ok c, s1) ->
     py_truthy c = true ->
     boto_client E 179 "s3" = Ok tt ->
     os_index E key (make_document E key c (lm_of E bucket key)) = Exc e ->
     process_record E fuel (bucket, key) s
     = Some (Exc e, push (IndexPut key (make_document E key c (lm_of E bucket key)))
                       (push (HeadObject bucket key) s1))).
Proof.
  split; [|split; [|split]].
  - intros pre r rest s s0 e s1 Hpre Hr.
    assert (Hall : process_records E fuel (pre ++ r :: rest) s = Some (Exc e, s1)).
    { rewrite (process_records_app E fuel pre (r :: rest) s s0 Hpre); simpl.
      apply bind_some_exc; exact Hr. }
    unfold lambda_handler, try_except; rewrite (bind_some_exc _ _ _ _ _ Hall).
    reflexivity.
  - intros bucket key s e s1 Hx.
    destruct (extract_text_from_file_exc E fuel bucket key s e s1 Hx) as [-> Hcl].
    split; [reflexivity|split; [exact Hcl|]].
    unfold process_record; apply bind_some_exc; exact Hx.
  - intros bucket key s c s1 e Hx Hc H179.
    unfold process_record; rewrite (bind_some_ok _ _ _ _ _ Hx), Hc; simpl.
    unfold bind at 1, new_client, lift; rewrite H179; reflexivity.
  - intros bucket key s c s1 e Hx Hc H179 Hix.
    rewrite (process_record_nonempty E fuel bucket key s c s1 Hx Hc H179).
    unfold opensearch_index; rewrite Hix; reflexivity.
Qed.

Lemma record_error_ends_batch_witness :
  lambda_handler env0 5 [("docs", "r1.txt"); ("docs", "r2.txt"); ("docs", "r3.txt")] st0
  = Some (Ok (500%Z, "Error processing document: rejected"),
          push (IndexPut "r2.txt" (make_document env0 "r2.txt" "body" "2026-01-01T00:00:00"))
            (push (HeadObject "docs" "r2.txt")
               (mkSt [GetObject "docs" "r1.txt"; HeadObject "docs" "r1.txt";
                      IndexPut "r1.txt" (make_document env0 "r1.txt" "body" "2026-01-01T00:00:00");
                      GetObject "docs" "r2.txt"] 0
                     [("r1.txt", make_document env0 "r1.txt" "body" "2026-01-01T00:00:00")]))) /\
  process_record env_noclient 5 ("docs", "r1.txt") st0
  = Some (Exc "You must specify a region.", st0) /\
  process_record env_noclient179 5 ("docs", "r1.txt") st0
  = Some (Exc "You must specify a region.", push (GetObject "docs" "r1.txt") st0).
Proof.
  destruct (record_error_ends_batch env0 5) as [Hbatch [_ [_ Hindex]]].
  split; [|split].
  - apply (Hbatch [("docs", "r1.txt")] ("docs", "r2.txt") [("docs", "r3.txt")] st0
             (mkSt [GetObject "docs" "r1.txt"; HeadObject "docs" "r1.txt";
                    IndexPut "r1.txt" (make_document env0 "r1.txt" "body" "2026-01-01T00:00:00")] 0
                   [("r1.txt", make_document env0 "r1.txt" "body" "2026-01-01T00:00:00")])).
    + reflexivity.
    + apply (Hindex "docs" "r2.txt" _ "body"); reflexivity.
  - exact (proj2 (proj2 (proj1 (proj2 (record_error_ends_batch env_noclient 5))
                           "docs" "r1.txt" st0 "You must specify a region." st0 eq_refl))).
  - exact (proj1 (proj2 (proj2 (record_error_ends_batch env_noclient179 5)))
             "docs" "r1.txt" st0 "body" (push (GetObject "docs" "r1.txt") st0)
             "You must specify a region." eq_refl eq_refl eq_refl).
Defined.

(** C2 counterexample: in a batch of three records where indexing record 2
    fails, record 3 is never read and never indexed. *)
Lemma C2_third_record_not_attempted :
  exists s',
    lambda_handler env0 5 [("docs", "r1.txt"); ("docs", "r2.txt"); ("docs", "r3.txt")] st0
    = Some (Ok (500%Z, "Error processing document: rejected"), s') /\
    ~ In (GetObject "docs" "r3.txt") (trace s') /\
    lookup_doc "r3.txt" (index s') = None.
Proof.
  eexists; split; [reflexivity|split; [|reflexivity]].
  simpl; intuition congruence.
Qed.

(** C8 (confirmed).  When the metadata request raises, [last_modified] is
    the current time and the record is still assembled and committed
    (the s3 client of line 179, built before the [try], is assumed built). *)
Theorem metadata_error_still_indexed E fuel bucket key s c s1 m :
  extract_text_from_file E fuel bucket key s = Some (Ok c, s1) ->
  py_truthy c = true ->
  boto_client E 179 "s3" = Ok tt ->
  s3_head E bucket key = Exc m ->
  process_record E fuel (bucket, key) s
  = opensearch_index E key (make_document E key c (utcnow E))
      (push (HeadObject bucket key) s1) /\
  (os_index E key (make_document E key c (utcnow E)) = Ok tt ->
   exists s2, process_record E fuel (bucket, key) s = Some (Ok tt, s2) /\
              lookup_doc key (index s2) = Some (make_document E key c (utcnow E))).
Proof.
  intros Hx Hc H179 Hhead.
  assert (Hlm : lm_of E bucket key = utcnow E) by (unfold lm_of; rewrite Hhead; reflexivity).
  pose proof (process_record_nonempty E fuel bucket key s c s1 Hx Hc H179) as Hp.
  rewrite Hlm in Hp; split; [exact Hp|].
  intros Hix; rewrite Hp; apply opensearch_index_ok; exact Hix.
Qed.

Lemma metadata_error_still_indexed_witness :
  exists s2, process_record env_nohead 5 ("docs", "r1.txt") st0 = Some (Ok tt, s2) /\
    lookup_doc "r1.txt" (index s2)
    = Some (make_document env_nohead "r1.txt" "body" "2026-10-19T00:00:00").
Proof.
  exact (proj2 (metadata_error_still_indexed env_nohead 5 "docs" "r1.txt" st0 "body"
                  (mkSt [GetObject "docs" "r1.txt"] 0 []) "AccessDenied"
                  eq_refl eq_refl eq_refl eq_refl) eq_refl).
Defined.

(* ------------------------------------------------------------------ *)
(** ** Trace invariants *)

Section Keeps.

Variable P : call -> Prop.

Lemma keeps_ret {A} (a : A) : keeps P (ret a).
Proof. intros s r s' H; injection H as <- <-; exists []; rewrite app_nil_r; auto. Qed.

Lemma keeps_lift {A} (x : res A) : keeps P (lift x).
Proof. intros s r s' H; injection H as <- <-; exists []; rewrite app_nil_r; auto. Qed.

Lemma keeps_diverge {A} : keeps P (@diverge A).
Proof. intros s r s' H; discriminate H. Qed.

Lemma keeps_emit c : P c -> keeps P (emit c).
Proof. intros Hc s r s' H; injection H as <- <-; exists [c]; auto. Qed.

Lemma keeps_bind {A B} (m : M A) (k : A -> M B) :
  keeps P m -> (forall a, keeps P (k a)) -> keeps P (bind m k).
Proof.
  intros Hm Hk s r s' H; unfold bind in H.
  destruct (m s) as [[[a|e] s1]|] eqn:Hs; try discriminate.
  - destruct (Hm _ _ _ Hs) as [l1 [E1 F1]].
    destruct (Hk a _ _ _ H) as [l2 [E2 F2]].
    exists (l1 ++ l2)%list; rewrite E2, E1, app_assoc; split; [reflexivity|].
    apply Forall_app; auto.
  - injection H as <- <-; exact (Hm _ _ _ Hs).
Qed.

Lemma keeps_try {A} (m : M A) (h : string -> M A) :
  keeps P m -> (forall e, keeps P (h e)) -> keeps P (try_except m h).
Proof.
  intros Hm Hh s r s' H; unfold try_except in H.
  destruct (m s) as [[[a|e] s1]|] eqn:Hs; try discriminate.
  - injection H as <- <-; exact (Hm _ _ _ Hs).
  - destruct (Hm _ _ _ Hs) as [l1 [E1 F1]].
    destruct (Hh e _ _ _ H) as [l2 [E2 F2]].
    exists (l1 ++ l2)%list; rewrite E2, E1, app_assoc; split; [reflexivity|].
    apply Forall_app; auto.
Qed.

Lemma keeps_get_analysis E job tok :
  P (GetAnalysis job tok) -> keeps P (get_document_analysis E job tok).
Proof. intros Hc s r s' H; injection H as <- <-; exists [GetAnalysis job tok]; auto. Qed.

Lemma keeps_index E id d : P (IndexPut id d) -> keeps P (opensearch_index E id d).
Proof.
  intros Hc s r s' H; unfold opensearch_index in H.
  destruct (os_index E id d); injection H as <- <-; exists [IndexPut id d]; auto.
Qed.

End Keeps.

Create HintDb keeps.
#[local] Hint Resolve keeps_ret keeps_lift keeps_diverge keeps_emit keeps_bind
  keeps_try keeps_get_analysis keeps_index : keeps.

Ltac keeps_step :=
  intros;
  match goal with
  | |- keeps _ (bind _ _) => apply keeps_bind
  | |- keeps _ (try_except _ _) => apply keeps_try
  | |- keeps _ (if ?b then _ else _) => destruct b
  | |- keeps _ (let '(_, _) := ?p in _) => destruct p as [[? ?] ?]
  | |- keeps _ (match ?x with Some _ => _ | None => _ end) => destruct x
  | |- keeps _ (get_document_analysis _ _ _) => apply keeps_get_analysis
  | |- keeps _ (emit _) => apply keeps_emit
  | |- keeps _ (opensearch_index _ _ _) => apply keeps_index
  | |- keeps _ _ => solve [eauto with keeps]
  end.

Section RawKey.

Variables (E : env) (bucket key : string).

Lemma poll_loop_keeps fuel job : keeps (uses_raw_key E bucket key) (poll_loop E fuel job).
Proof.
  induction fuel as [|fuel IH]; simpl; [apply keeps_diverge|].
  repeat keeps_step; simpl; auto.
Qed.

Lemma page_loop_keeps fuel job next acc : keeps (uses_raw_key E bucket key) (page_loop E fuel job next acc).
Proof.
  revert next acc; induction fuel as [|fuel IH]; intros next acc; simpl;
    [apply keeps_diverge|].
  repeat keeps_step; simpl; auto.
Qed.

Lemma analyze_document_keeps fuel :
  keeps (uses_raw_key E bucket key) (analyze_document E fuel bucket key).
Proof.
  unfold analyze_document, start_document_analysis.
  repeat (keeps_step || apply poll_loop_keeps || apply page_loop_keeps);
    simpl; auto.
Qed.

Lemma extract_text_from_file_keeps fuel :
  keeps (uses_raw_key E bucket key) (extract_text_from_file E fuel bucket key).
Proof.
  unfold extract_text_from_file, extract_try, new_client, extract_text_from_docx,
    textract_fallback, get_object, run_pandoc; cbv zeta.
  repeat (keeps_step || apply analyze_document_keeps); simpl; auto.
Qed.

Lemma process_record_keeps fuel : keeps (uses_raw_key E bucket key) (process_record E fuel (bucket, key)).
Proof.
  unfold process_record, new_client, head_object.
  repeat (keeps_step || apply extract_text_from_file_keeps); simpl; auto.
Qed.

End RawKey.

(* ------------------------------------------------------------------ *)
(** ** Decoding lemmas *)

Lemma py_replace_char_app o n a b :
  py_replace_char o n (a ++ b) = py_replace_char o n a ++ py_replace_char o n b.
Proof. induction a as [|c a IH]; simpl; [reflexivity | now rewrite IH]. Qed.

Lemma unquote_not_pct c t :
  Ascii.eqb c "%" = false -> unquote (String c t) = String c (unquote t).
Proof. intros H; simpl; rewrite H; reflexivity. Qed.

Lemma unquote_pct_short t :
  (forall h1 h2 r, t <> String h1 (String h2 r)) ->
  unquote (String "%" t) = String "%" (unquote t).
Proof.
  intros H; destruct t as [|h1 [|h2 r]]; try reflexivity.
  exfalso; exact (H h1 h2 r eq_refl).
Qed.

Lemma unquote_pct_hex h1 h2 r a b :
  hexval h1 = Some a -> hexval h2 = Some b ->
  unquote (String "%" (String h1 (String h2 r)))
  = String (ascii_of_nat (a * 16 + b)) (unquote r).
Proof. intros H1 H2; simpl; rewrite H1, H2; reflexivity. Qed.

Lemma unquote_pct_nonhex h1 h2 r :
  hexval h1 = None \/ hexval h2 = None ->
  unquote (String "%" (String h1 (String h2 r)))
  = String "%" (unquote (String h1 (String h2 r))).
Proof.
  intros H; change (unquote (String "%" (String h1 (String h2 r))))
    with (match hexval h1, hexval h2 with
          | Some a, Some b => String (ascii_of_nat (a * 16 + b)) (unquote r)
          | _, _ => String "%" (unquote (String h1 (String h2 r)))
          end).
  destruct H as [H|H]; rewrite H; [reflexivity|destruct (hexval h1); reflexivity].
Qed.

Lemma unquote_pct_space y :
  unquote (String "%" (String " " y)) = String "%" (String " " (unquote y)).
Proof.
  destruct y as [|h2 r].
  - reflexivity.
  - rewrite unquote_pct_nonhex by (left; reflexivity).
    rewrite unquote_not_pct by reflexivity; reflexivity.
Qed.

(** A space never belongs to a [%XX] escape, so [unquote] splits at it. *)
Lemma unquote_app_space_le n : forall x y,
  String.length x <= n ->
  unquote (x ++ String " " y) = unquote x ++ String " " (unquote y).
Proof.
  induction n as [|n IH]; intros x y Hl.
  - destruct x; [|simpl in Hl; lia].
    cbn [String.append]; apply unquote_not_pct; reflexivity.
  - destruct x as [|c t].
    + cbn [String.append]; apply unquote_not_pct; reflexivity.
    + cbn [String.length] in Hl.
      destruct (Ascii.eqb c "%") eqn:Hc.
      * apply Ascii.eqb_eq in Hc; subst c.
        destruct t as [|h1 [|h2 r]].
        -- cbn [String.append]; rewrite unquote_pct_space.
           rewrite unquote_pct_short by congruence; reflexivity.
        -- cbn [String.append].
           rewrite unquote_pct_nonhex by (right; reflexivity).
           cbn [String.length] in Hl.
           pose proof (IH (String h1 EmptyString) y) as IH1;
             cbn [String.append String.length] in IH1; rewrite IH1 by lia.
           rewrite (unquote_pct_short (String h1 EmptyString)) by congruence.
           reflexivity.
        -- cbn [String.append String.length] in Hl |- *.
           destruct (hexval h1) as [a|] eqn:Ha; [destruct (hexval h2) as [b|] eqn:Hb|].
           ++ rewrite (unquote_pct_hex _ _ _ a b Ha Hb).
              rewrite (unquote_pct_hex _ _ _ a b Ha Hb).
              rewrite (IH r y) by lia; reflexivity.
           ++ rewrite unquote_pct_nonhex by auto.
              rewrite (unquote_pct_nonhex h1 h2 r) by auto.
              pose proof (IH (String h1 (String h2 r)) y) as IH1;
                cbn [String.append String.length] in IH1; rewrite IH1 by lia; reflexivity.
           ++ rewrite unquote_pct_nonhex by auto.
              rewrite (unquote_pct_nonhex h1 h2 r) by auto.
              pose proof (IH (String h1 (String h2 r)) y) as IH1;
                cbn [String.append String.length] in IH1; rewrite IH1 by lia; reflexivity.
      * cbn [String.append].
        rewrite !unquote_not_pct by exact Hc.
        rewrite (IH t y) by lia; reflexivity.
Qed.

Lemma unquote_app_space x y :
  unquote (x ++ String " " y) = unquote x ++ String " " (unquote y).
Proof. apply (unquote_app_space_le (String.length x)); lia. Qed.

(** Each literal ['+'] of a key becomes a space of the decoded key. *)
Lemma unquote_plus_app_plus a b :
  unquote_plus (a ++ "+" ++ b) = unquote_plus a ++ " " ++ unquote_plus b.
Proof.
  unfold unquote_plus; rewrite py_replace_char_app; simpl.
  apply unquote_app_space.
Qed.

(** C3 (confirmed).  Every S3 and Textract call of a record uses the raw
    key as delivered; the indexed document takes its id from the raw key
    and its title and file type from the decoded key; for the key
    ["folder/my%20file.txt"] the calls use the encoded key and the title
    is ["my file.txt"]. *)
Theorem storage_calls_use_raw_key E fuel bucket key :
  keeps (uses_raw_key E bucket key) (process_record E fuel (bucket, key)) /\
  (forall content lm,
     title (make_document E key content lm) = title_of (unquote_plus key) /\
     document_id (make_document E key content lm) = key) /\
  title_of (unquote_plus "folder/my%20file.txt") = "my file.txt" /\
  process_record env0 5 ("docs", "folder/my%20file.txt") st0
  = Some (Ok tt,
          mkSt [GetObject "docs" "folder/my%20file.txt";
                HeadObject "docs" "folder/my%20file.txt";
                IndexPut "folder/my%20file.txt"
                  (mkDocument "body" "my file.txt" "folder/my%20file.txt" "txt"
                     "2026-10-19T00:00:00" "2026-01-01T00:00:00")] 0
               [("folder/my%20file.txt",
                 mkDocument "body" "my file.txt" "folder/my%20file.txt" "txt"
                   "2026-10-19T00:00:00" "2026-01-01T00:00:00")]).
Proof.
  split; [apply process_record_keeps|].
  split; [intros; split; reflexivity|].
  split; reflexivity.
Qed.

(** C10 (confirmed).  [unquote_plus] turns every literal ['+'] of the key
    into a space; the title, file type and extension dispatch read the
    decoded key while every storage call still uses the raw key. *)
Theorem plus_decoded_as_space E fuel bucket a b :
  unquote_plus (a ++ "+" ++ b) = unquote_plus a ++ " " ++ unquote_plus b /\
  keeps (uses_raw_key E bucket (a ++ "+" ++ b))
        (process_record E fuel (bucket, a ++ "+" ++ b)) /\
  (forall content lm,
     title (make_document E (a ++ "+" ++ b) content lm)
     = title_of (unquote_plus a ++ " " ++ unquote_plus b) /\
     file_type (make_document E (a ++ "+" ++ b) content lm)
     = file_ext_of (unquote_plus a ++ " " ++ unquote_plus b)).
Proof.
  split; [apply unquote_plus_app_plus|].
  split; [apply process_record_keeps|].
  intros content lm; unfold make_document; cbv zeta; cbn [title file_type].
  rewrite unquote_plus_app_plus; split; reflexivity.
Qed.

(* ------------------------------------------------------------------ *)
(** ** Office documents, pagination *)

Lemma page_loop_pages E job : forall ps n0 fuel tok acc s,
  serves_pages E job n0 tok ps -> n0 <= gets s -> token_arg tok = tok ->
  length ps <= fuel ->
  page_loop E fuel job tok acc s
  = Some (Ok (acc ++ page_lines ps)%list,
          mkSt (trace s ++ page_calls job tok ps) (gets s + length ps) (index s)).
Proof.
  induction ps as [|p ps IH]; intros n0 fuel tok acc s Hsv Hn0 Htok Hlen;
    [destruct Hsv|].
  destruct fuel as [|fuel]; [simpl in Hlen; lia|].
  destruct Hsv as [Hget Hnext].
  cbn [page_loop]; unfold bind, get_document_analysis.
  rewrite Htok, (Hget (gets s) Hn0).
  destruct (next_token p) as [t|] eqn:Ht.
  - destruct Hnext as [Htr Hsv'].
    rewrite (IH n0 fuel (Some t) _ _ Hsv'); simpl in *;
      [| lia | rewrite Htr; reflexivity | lia].
    rewrite ?Ht, <- !app_assoc; simpl; rewrite ?Ht.
    repeat f_equal; lia.
  - subst ps; simpl; rewrite ?Ht, ?app_nil_r.
    unfold ret; repeat f_equal; lia.
Qed.

(** C5 (confirmed).  For a [docx]/[doc] key (once the clients of lines
    70-71 are built), [extract_text_from_docx] runs
    first ([GetObject] on the raw key, then pandoc); it never raises, and
    yields [None] on an S3 or pandoc exception or a nonzero exit code.
    Unless it yields non-empty text, the Textract branch runs next on the
    same bucket and raw key. *)
Theorem office_falls_back_to_textract E fuel bucket key s :
  boto_client E 70 "textract" = Ok tt ->
  boto_client E 71 "s3" = Ok tt ->
  py_in (file_ext_of (unquote_plus key)) text_exts = false ->
  py_in (file_ext_of (unquote_plus key)) office_exts = true ->
  exists c s1 rest,
    extract_text_from_docx E bucket key s = Some (Ok c, s1) /\
    trace s1 = (trace s ++ GetObject bucket key :: rest)%list /\
    c = match s3_get_object E bucket key with
        | Exc _ => None
        | Ok body =>
            match pandoc E body with
            | Exc _ => None
            | Ok (code, out, _) => if Z.eqb code 0 then Some out else None
            end
        end /\
    extract_text_from_file E fuel bucket key s
    = match c with
      | Some t =>
          if py_truthy t then Some (Ok t, s1)
          else try_except (analyze_document E fuel bucket key) (fun e => ret e) s1
      | None => try_except (analyze_document E fuel bucket key) (fun e => ret e) s1
      end.
Proof.
  intros H70 H71 H1 H2.
  assert (Hd : exists c s1 rest,
            extract_text_from_docx E bucket key s = Some (Ok c, s1) /\
            trace s1 = (trace s ++ GetObject bucket key :: rest)%list /\
            c = match s3_get_object E bucket key with
                | Exc _ => None
                | Ok body =>
                    match pandoc E body with
                    | Exc _ => None
                    | Ok (code, out, _) => if Z.eqb code 0 then Some out else None
                    end
                end).
  { unfold extract_text_from_docx, try_except, get_object, run_pandoc,
      bind, emit, lift, ret.
    destruct (s3_get_object E bucket key) as [body|e];
      [destruct (pandoc E body) as [[[code out] err]|e];
         [destruct (Z.eqb code 0)|]|];
      do 3 eexists; split; try reflexivity; simpl;
      (split; [try rewrite <- app_assoc; reflexivity | reflexivity]). }
  destruct Hd as (c & s1 & rest & Hdocx & Htr & Hc).
  exists c, s1, rest; split; [exact Hdocx|split; [exact Htr|split; [exact Hc|]]].
  rewrite (extract_text_from_file_try E fuel bucket key s H70 H71).
  unfold extract_try; cbv zeta; rewrite H1, H2.
  unfold try_except at 1; rewrite (bind_some_ok _ _ _ _ _ Hdocx).
  destruct c as [t|]; unfold textract_fallback; [destruct (py_truthy t)|];
    reflexivity.
Qed.

Lemma office_falls_back_to_textract_witness :
  exists c s1 rest,
    extract_text_from_docx env0 "docs" "report.docx" st0 = Some (Ok c, s1) /\
    trace s1 = (trace st0 ++ GetObject "docs" "report.docx" :: rest)%list /\
    c = Some "" /\
    extract_text_from_file env0 5 "docs" "report.docx" st0
    = try_except (analyze_document env0 5 "docs" "report.docx") (fun e => ret e) s1.
Proof.
  destruct (office_falls_back_to_textract env0 5 "docs" "report.docx" st0
                eq_refl eq_refl eq_refl eq_refl)
    as (c & s1 & rest & Hd & Htr & Hc & Hx).
  exists c, s1, rest; simpl in Hc; subst c; repeat split; assumption.
Defined.

(** C6 (confirmed).  Once the poll loop has seen [SUCCEEDED], the Textract
    branch requests the first page without a token and then each page's
    [NextToken] in turn until a page has none, and returns the texts of
    all [LINE] blocks of all pages, in order, joined by newlines. *)
Theorem pages_all_retrieved E fuel bucket key s job r s1 ps :
  tx_start E bucket key = Ok job ->
  poll_loop E fuel job (push (StartAnalysis bucket key) s) = Some (Ok r, s1) ->
  job_status r = "SUCCEEDED" ->
  serves_pages E job (gets s1) None ps ->
  length ps <= fuel ->
  analyze_document E fuel bucket key s
  = Some (Ok (String.concat nl (page_lines ps)),
          mkSt (trace s1 ++ page_calls job None ps) (gets s1 + length ps) (index s1)).
Proof.
  intros Hjob Hpoll Hst Hsv Hlen; unfold analyze_document.
  rewrite (bind_some_ok _ _ _ _ _ (start_document_analysis_ok E bucket key s job Hjob)).
  rewrite (bind_some_ok _ _ _ _ _ Hpoll); cbv beta; rewrite Hst.
  change (String.eqb "SUCCEEDED" "SUCCEEDED") with true; cbv iota.
  rewrite (bind_some_ok _ _ _ _ _
             (page_loop_pages E job ps (gets s1) fuel None [] s1 Hsv (le_n _) eq_refl Hlen)).
  reflexivity.
Qed.

Lemma pages_all_retrieved_witness :
  analyze_document env_pages 5 "docs" "scan.pdf" st0
  = Some (Ok ("Revenue" ++ nl ++ "grew 10%."),
          mkSt [StartAnalysis "docs" "scan.pdf"; GetAnalysis "job1" None; Sleep 3;
                GetAnalysis "job1" None; GetAnalysis "job1" None;
                GetAnalysis "job1" (Some "t2")] 4 []).
Proof.
  refine (pages_all_retrieved env_pages 5 "docs" "scan.pdf" st0 "job1" page1
            (mkSt [StartAnalysis "docs" "scan.pdf"; GetAnalysis "job1" None; Sleep 3;
                   GetAnalysis "job1" None] 2 [])
            [page1; page2] eq_refl eq_refl eq_refl _ _).
  - simpl; split; [intros [|n] Hn; [lia | reflexivity]|].
    split; [reflexivity|]; split; [intros n Hn; reflexivity | reflexivity].
  - simpl; lia.
Defined.

(* ------------------------------------------------------------------ *)
(** ** The poll loop *)

Lemma get_analysis_at E job tok s r :
  tx_get E (gets s) job tok = r ->
  get_document_analysis E job tok s
  = Some (r, mkSt (trace s ++ [GetAnalysis job tok])%list (S (gets s)) (index s)).
Proof. intros H; unfold get_document_analysis; rewrite H; reflexivity. Qed.

Lemma poll_loop_step E job fuel s r :
  tx_get E (gets s) job None = Ok r ->
  is_terminal (job_status r) = false ->
  poll_loop E (S fuel) job s
  = poll_loop E fuel job
      (push (Sleep 3) (mkSt (trace s ++ [GetAnalysis job None])%list (S (gets s)) (index s))).
Proof.
  intros Hg Ht; cbn [poll_loop].
  rewrite (bind_some_ok _ _ _ _ _ (get_analysis_at E job None s _ Hg)).
  rewrite Ht; reflexivity.
Qed.

Lemma poll_loop_first_terminal E job : forall k s (resp : nat -> tx_response),
  (forall i, tx_get E (gets s + i) job None = Ok (resp i)) ->
  is_terminal (job_status (resp k)) = true ->
  (forall i, i < k -> is_terminal (job_status (resp i)) = false) ->
  forall fuel, k < fuel ->
  poll_loop E fuel job s
  = Some (Ok (resp k), mkSt (trace s ++ poll_calls job k) (gets s + S k) (index s)).
Proof.
  induction k as [|k IH]; intros s resp Hget Hk Hbefore fuel Hfuel;
    (destruct fuel as [|fuel]; [lia|]);
    pose proof (Hget 0) as H0; rewrite Nat.add_0_r in H0.
  - cbn [poll_loop].
    rewrite (bind_some_ok _ _ _ _ _ (get_analysis_at E job None s _ H0)).
    rewrite Hk; unfold ret, poll_calls; simpl.
    repeat f_equal; lia.
  - rewrite (poll_loop_step E job fuel s (resp 0) H0 (Hbefore 0 ltac:(lia))).
    rewrite (IH _ (fun i => resp (S i))); simpl; try lia; auto.
    + unfold poll_calls; simpl; rewrite <- !app_assoc; simpl.
      repeat f_equal; lia.
    + intros i; rewrite <- (Hget (S i)); f_equal; lia.
    + intros i Hi; apply Hbefore; lia.
Qed.

Lemma poll_loop_never_terminal E job : forall fuel s (resp : nat -> tx_response),
  (forall i, tx_get E (gets s + i) job None = Ok (resp i)) ->
  (forall i, is_terminal (job_status (resp i)) = false) ->
  poll_loop E fuel job s = None.
Proof.
  induction fuel as [|fuel IH]; intros s resp Hget Hnt; [reflexivity|].
  pose proof (Hget 0) as H0; rewrite Nat.add_0_r in H0.
  rewrite (poll_loop_step E job fuel s (resp 0) H0 (Hnt 0)).
  apply (IH _ (fun i => resp (S i))); [|intros; apply Hnt].
  intros i; simpl; rewrite <- (Hget (S i)); f_equal; lia.
Qed.

(** C7 (confirmed).  Whatever statuses the job reports, the poll loop
    stops at the first poll whose status is [SUCCEEDED] or [FAILED], however
    late it comes, after one [time.sleep(3)] per earlier poll; when no
    poll reports a terminal status, it does not finish for any fuel. *)
Theorem poll_until_terminal E job s (resp : nat -> tx_response) :
  (forall i, tx_get E (gets s + i) job None = Ok (resp i)) ->
  (forall k, is_terminal (job_status (resp k)) = true ->
     (forall i, i < k -> is_terminal (job_status (resp i)) = false) ->
     forall fuel, k < fuel ->
     poll_loop E fuel job s
     = Some (Ok (resp k), mkSt (trace s ++ poll_calls job k) (gets s + S k) (index s))) /\
  ((forall i, is_terminal (job_status (resp i)) = false) ->
     forall fuel, poll_loop E fuel job s = None).
Proof.
  intros Hget; split.
  - intros k Hk Hbefore fuel Hfuel; exact (poll_loop_first_terminal E job k s resp Hget Hk Hbefore fuel Hfuel).
  - intros Hnt fuel; exact (poll_loop_never_terminal E job fuel s resp Hget Hnt).
Qed.

Lemma poll_until_terminal_witness :
  poll_loop env_pages 5 "job1" st0
  = Some (Ok page1, mkSt [GetAnalysis "job1" None; Sleep 3; GetAnalysis "job1" None] 2 []).
Proof.
  refine (proj1 (poll_until_terminal env_pages "job1" st0
                   (fun i => if Nat.eqb i 0 then in_progress else page1) _)
            1 eq_refl _ 5 ltac:(lia)).
  - intros [|i]; reflexivity.
  - intros [|i] Hi; [reflexivity | lia].
Defined.

(* ------------------------------------------------------------------ *)
(** ** [generate_response] *)

Lemma caught_cases o :
  AiSearch.caught o = true ->
  exists m, o = AiSearch.ClientError m \/ o = AiSearch.Boto3Error m.
Proof. destruct o; simpl; try discriminate; eauto. Qed.

(** With [max_retries = 3], the first attempt [i] whose outcome the
    [except] clause does not catch ends [generate_response], after the
    events of [i + 1] attempts. *)
Lemma generate_response_stop invoke docs i o :
  docs <> [] ->
  existsb (fun d => match d with None => true | Some _ => false end) docs = false ->
  i < 3 ->
  (forall j, j < i -> AiSearch.caught (invoke j) = true) ->
  invoke i = o -> AiSearch.caught o = false ->
  AiSearch.generate_response invoke docs 3
  = (match o with
     | AiSearch.Body c => Ok (AiSearch.parse_body c)
     | AiSearch.OtherError m => Exc m
     | _ => Ok EmptyString
     end, AiSearch.attempts (S i)).
Proof.
  intros Hne Hsrc Hi Hc Ho Hno; unfold AiSearch.generate_response.
  destruct docs as [|d ds]; [congruence|]; rewrite Hsrc; subst o.
  destruct i as [|[|[|i]]]; [| | |lia]; simpl.
  - destruct (invoke 0); try discriminate Hno; reflexivity.
  - destruct (caught_cases _ (Hc 0 ltac:(lia))) as [m0 [E0|E0]]; rewrite E0; simpl;
      destruct (invoke 1); try discriminate Hno; reflexivity.
  - destruct (caught_cases _ (Hc 0 ltac:(lia))) as [m0 [E0|E0]];
      destruct (caught_cases _ (Hc 1 ltac:(lia))) as [m1 [E1|E1]];
      rewrite E0; simpl; rewrite E1; simpl;
      destruct (invoke 2); try discriminate Hno; reflexivity.
Qed.

(** C9 (corrected).  With [max_retries = 3], [invoke_model] is tried at
    most three times, with sleeps of [2 ^ attempt] seconds (1, then 2)
    between attempts.  Only a caught error ([ClientError],
    [Boto3Error]) leads to a retry: after three of them the result is the
    string ["Error generating response from Bedrock."].  The first attempt
    with any other outcome ends the call with no further attempt: a parsed
    body gives its text, or ["Error: Unable to parse model response."]
    when it has no text item; an exception the [except] clause does not
    name is raised out of [generate_response]. *)
Theorem generate_response_retries invoke docs :
  docs <> [] ->
  existsb (fun d => match d with None => true | Some _ => false end) docs = false ->
  (exists k, 1 <= k <= 3 /\
     snd (AiSearch.generate_response invoke docs 3) = AiSearch.attempts k) /\
  (forall m, fst (AiSearch.generate_response invoke docs 3) = Exc m ->
     exists a, a < 3 /\ invoke a = AiSearch.OtherError m) /\
  (AiSearch.caught (invoke 0) = true -> AiSearch.caught (invoke 1) = true ->
   AiSearch.caught (invoke 2) = true ->
   AiSearch.generate_response invoke docs 3
   = (Ok "Error generating response from Bedrock.", AiSearch.attempts 3)) /\
  (forall i m, i < 3 -> (forall j, j < i -> AiSearch.caught (invoke j) = true) ->
   invoke i = AiSearch.OtherError m ->
   AiSearch.generate_response invoke docs 3 = (Exc m, AiSearch.attempts (S i))) /\
  (forall i c, i < 3 -> (forall j, j < i -> AiSearch.caught (invoke j) = true) ->
   invoke i = AiSearch.Body c ->
   AiSearch.generate_response invoke docs 3
   = (Ok (AiSearch.parse_body c), AiSearch.attempts (S i))) /\
  (forall i c, i < 3 -> (forall j, j < i -> AiSearch.caught (invoke j) = true) ->
   invoke i = AiSearch.Body c ->
   (forall items, c = Some items -> AiSearch.first_text items = None) ->
   AiSearch.generate_response invoke docs 3
   = (Ok "Error: Unable to parse model response.", AiSearch.attempts (S i))).
Proof.
  intros Hne Hsrc.
  assert (Hbounds :
    (exists k, 1 <= k <= 3 /\
       snd (AiSearch.generate_response invoke docs 3) = AiSearch.attempts k) /\
    (forall m, fst (AiSearch.generate_response invoke docs 3) = Exc m ->
       exists a, a < 3 /\ invoke a = AiSearch.OtherError m) /\
    (AiSearch.caught (invoke 0) = true -> AiSearch.caught (invoke 1) = true ->
     AiSearch.caught (invoke 2) = true ->
     AiSearch.generate_response invoke docs 3
     = (Ok "Error generating response from Bedrock.", AiSearch.attempts 3))).
  { unfold AiSearch.generate_response.
    destruct docs as [|d ds]; [congruence|]; rewrite Hsrc; simpl.
    destruct (invoke 0) eqn:H0, (invoke 1) eqn:H1, (invoke 2) eqn:H2; simpl;
      (split;
       [ first [ exists 1; split; [lia|reflexivity]
               | exists 2; split; [lia|reflexivity]
               | exists 3; split; [lia|reflexivity] ]
       | split;
         [ intros m Hm;
           first [ discriminate Hm
                 | injection Hm as Hm; subst;
                   first [ exists 0; split; [lia|exact H0]
                         | exists 1; split; [lia|exact H1]
                         | exists 2; split; [lia|exact H2] ] ]
         | intros Hc0 Hc1 Hc2;
           first [ reflexivity | discriminate Hc0 | discriminate Hc1 | discriminate Hc2 ] ] ]). }
  destruct Hbounds as [Hk [Hexc Hall]].
  split; [exact Hk|split; [exact Hexc|split; [exact Hall|split; [|split]]]].
  - intros i m Hi Hc Hm.
    exact (generate_response_stop invoke docs i _ Hne Hsrc Hi Hc Hm eq_refl).
  - intros i c Hi Hc Hb.
    exact (generate_response_stop invoke docs i _ Hne Hsrc Hi Hc Hb eq_refl).
  - intros i c Hi Hc Hb Hnone.
    rewrite (generate_response_stop invoke docs i _ Hne Hsrc Hi Hc Hb eq_refl).
    destruct c as [items|]; [unfold AiSearch.parse_body; rewrite (Hnone items eq_refl)|];
      reflexivity.
Qed.

Lemma generate_response_retries_witness :
  AiSearch.generate_response (fun _ => AiSearch.ClientError "ThrottlingException")
    [Some AiSearch.src0] 3
  = (Ok "Error generating response from Bedrock.",
     [AiSearch.Invoke 0; AiSearch.Backoff 1; AiSearch.Invoke 1;
      AiSearch.Backoff 2; AiSearch.Invoke 2]) /\
  AiSearch.generate_response
    (fun a => if Nat.eqb a 0 then AiSearch.Boto3Error "ReadTimeout"
              else AiSearch.OtherError "EndpointConnectionError")
    [Some AiSearch.src0] 3
  = (Exc "EndpointConnectionError",
     [AiSearch.Invoke 0; AiSearch.Backoff 1; AiSearch.Invoke 1]) /\
  AiSearch.generate_response
    (fun _ => AiSearch.Body (Some [AiSearch.mkItem (Some "image") "x"]))
    [Some AiSearch.src0] 3
  = (Ok "Error: Unable to parse model response.", [AiSearch.Invoke 0]).
Proof.
  split; [|split].
  - exact (proj1 (proj2 (proj2 (generate_response_retries
                                  (fun _ => AiSearch.ClientError "ThrottlingException")
                                  [Some AiSearch.src0] ltac:(discriminate) eq_refl)))
             eq_refl eq_refl eq_refl).
  - apply (proj1 (proj2 (proj2 (proj2 (generate_response_retries
             (fun a => if Nat.eqb a 0 then AiSearch.Boto3Error "ReadTimeout"
                       else AiSearch.OtherError "EndpointConnectionError")
             [Some AiSearch.src0] ltac:(discriminate) eq_refl))))
             1 "EndpointConnectionError").
    + lia.
    + intros [|j] Hj; [reflexivity|lia].
    + reflexivity.
  - apply (proj2 (proj2 (proj2 (proj2 (proj2 (generate_response_retries
             (fun _ => AiSearch.Body (Some [AiSearch.mkItem (Some "image") "x"]))
             [Some AiSearch.src0] ltac:(discriminate) eq_refl)))))
             0 (Some [AiSearch.mkItem (Some "image") "x"])).
    + lia.
    + intros j Hj; lia.
    + reflexivity.
    + intros items Hi; injection Hi as <-; reflexivity.
Defined.

(** C9 counterexample: a connection error (not a [ClientError]) on the
    first attempt is raised out of [generate_response], without a retry. *)
Lemma C9_other_error_raised :
  AiSearch.generate_response (fun _ => AiSearch.OtherError "EndpointConnectionError")
    [Some AiSearch.src0] 3
  = (Exc "EndpointConnectionError", [AiSearch.Invoke 0]).
Proof. reflexivity. Qed.

(* ------------------------------------------------------------------ *)
(** ** Key helpers: [split], [lower] and [unquote] *)

Lemma py_split_nonempty c s : exists w ws, py_split c s = w :: ws.
Proof.
  induction s as [|c' t [w [ws IH]]]; simpl; [eauto|].
  destruct (Ascii.eqb c' c); [eauto|rewrite IH; eauto].
Qed.

Lemma py_split_app_sep c a b :
  py_split c (a ++ String c b) = (py_split c a ++ py_split c b)%list.
Proof.
  induction a as [|c' t IH]; simpl.
  - rewrite Ascii.eqb_refl; reflexivity.
  - destruct (Ascii.eqb c' c); [rewrite IH; reflexivity|].
    rewrite IH; destruct (py_split_nonempty c t) as [w [ws ->]]; reflexivity.
Qed.

Lemma last_app_cons {A} (xs : list A) y ys d :
  last (xs ++ y :: ys) d = last (y :: ys) d.
Proof.
  induction xs as [|x xs IH]; [reflexivity|].
  change ((x :: xs) ++ y :: ys)%list with (x :: (xs ++ y :: ys))%list.
  transitivity (last (xs ++ y :: ys)%list d); [|exact IH].
  cbn [last]; destruct (xs ++ y :: ys)%list eqn:E; [destruct xs; discriminate|].
  reflexivity.
Qed.

Lemma last_Forall {A} (P : A -> Prop) xs d : Forall P xs -> P d -> P (last xs d).
Proof.
  induction 1 as [|x xs Hx Hxs IH]; intros Hd; [exact Hd|].
  simpl; destruct xs; [exact Hx|apply IH, Hd].
Qed.

Lemma py_split_no_sep c s : Forall (fun w => has_char c w = false) (py_split c s).
Proof.
  induction s as [|c' t IH]; simpl; [auto|].
  destruct (Ascii.eqb c' c) eqn:Hc; [constructor; auto|].
  destruct (py_split c t) as [|w ws] eqn:E.
  - constructor; [simpl; rewrite Hc; reflexivity|constructor].
  - inversion IH as [|w' ws' Hw Hws]; subst.
    constructor; [simpl; rewrite Hc, Hw; reflexivity|exact Hws].
Qed.

Lemma lower_ascii_dot c : Ascii.eqb (lower_ascii c) "." = Ascii.eqb c ".".
Proof. destruct c as [[] [] [] [] [] [] [] []]; reflexivity. Qed.

Lemma has_char_dot_lower s : has_char "." (py_lower s) = has_char "." s.
Proof. induction s as [|c t IH]; simpl; [reflexivity|now rewrite lower_ascii_dot, IH]. Qed.

Lemma unquote_length_le n : forall s, String.length s <= n ->
  String.length (unquote s) <= String.length s.
Proof.
  induction n as [|n IH]; intros s Hl; [destruct s; [reflexivity|simpl in Hl; lia]|].
  destruct s as [|c t]; [reflexivity|].
  cbn [String.length] in Hl.
  destruct (Ascii.eqb c "%") eqn:Hc.
  - apply Ascii.eqb_eq in Hc; subst c.
    destruct t as [|h1 [|h2 r]].
    + reflexivity.
    + rewrite unquote_pct_short by congruence; cbn [String.length].
      pose proof (IH (String h1 EmptyString) ltac:(simpl in Hl |- *; lia)) as H;
        cbn [String.length] in H |- *; lia.
    + destruct (hexval h1) as [a|] eqn:Ha; [destruct (hexval h2) as [b|] eqn:Hb|].
      * rewrite (unquote_pct_hex _ _ _ a b Ha Hb); cbn [String.length] in Hl |- *.
        pose proof (IH r ltac:(lia)); lia.
      * rewrite unquote_pct_nonhex by auto; cbn [String.length] in Hl |- *.
        pose proof (IH (String h1 (String h2 r)) ltac:(simpl; lia)) as H;
          cbn [String.length] in H; lia.
      * rewrite unquote_pct_nonhex by auto; cbn [String.length] in Hl |- *.
        pose proof (IH (String h1 (String h2 r)) ltac:(simpl; lia)) as H;
          cbn [String.length] in H; lia.
  - rewrite unquote_not_pct by exact Hc; cbn [String.length].
    pose proof (IH t ltac:(lia)); lia.
Qed.

Lemma py_replace_char_length o n s :
  String.length (py_replace_char o n s) = String.length s.
Proof. induction s; simpl; auto. Qed.

(** X1.  A key with neither ['%'] nor ['+'] is its own decoded key. *)
Theorem unquote_plus_plain_key key :
  has_char "%" key = false -> has_char "+" key = false -> unquote_plus key = key.
Proof.
  unfold unquote_plus; induction key as [|c t IH]; intros Hp Hq; [reflexivity|].
  simpl in Hp, Hq; apply orb_false_iff in Hp as [Hp Hp']; apply orb_false_iff in Hq as [Hq Hq'].
  cbn [py_replace_char]; rewrite Hq.
  rewrite unquote_not_pct by exact Hp; rewrite IH by assumption; reflexivity.
Qed.

Lemma unquote_plus_plain_key_witness :
  unquote_plus "reports/q1.txt" = "reports/q1.txt".
Proof. apply unquote_plus_plain_key; reflexivity. Defined.

(** X2.  Decoding never makes a key longer. *)
Theorem unquote_plus_length key :
  String.length (unquote_plus key) <= String.length key.
Proof.
  unfold unquote_plus; rewrite <- (py_replace_char_length "+" " " key).
  apply (unquote_length_le (String.length (py_replace_char "+" " " key))); lia.
Qed.

(** X3.  The title never contains ['/'] and the file type never contains
    ['.']. *)
Theorem title_and_type_have_no_separator decoded_key :
  has_char "/" (title_of decoded_key) = false /\
  has_char "." (file_ext_of decoded_key) = false.
Proof.
  split.
  - apply (last_Forall (fun w => has_char "/" w = false)); [apply py_split_no_sep|reflexivity].
  - unfold file_ext_of; rewrite has_char_dot_lower.
    apply (last_Forall (fun w => has_char "." w = false)); [apply py_split_no_sep|reflexivity].
Qed.

(** X4.  The title depends only on what follows the last ['/'], the file
    type only on what follows the last ['.']. *)
Theorem title_and_type_of_suffix a b :
  title_of (a ++ "/" ++ b) = title_of b /\
  file_ext_of (a ++ "." ++ b) = file_ext_of b.
Proof.
  unfold title_of, file_ext_of, py_last; simpl; split.
  - rewrite py_split_app_sep; destruct (py_split_nonempty "/" b) as [w [ws E]].
    rewrite E, last_app_cons; reflexivity.
  - rewrite py_split_app_sep; destruct (py_split_nonempty "." b) as [w [ws E]].
    rewrite E, last_app_cons; reflexivity.
Qed.

(* ------------------------------------------------------------------ *)
(** ** The index store *)

Lemma lookup_upsert_other id id' d ix :
  id' <> id -> lookup_doc id' (upsert id d ix) = lookup_doc id' ix.
Proof.
  intros Hne; induction ix as [|[i d0] ix IH]; simpl.
  - apply String.eqb_neq in Hne; rewrite String.eqb_sym, Hne; reflexivity.
  - destruct (String.eqb i id) eqn:Hi; simpl.
    + apply String.eqb_eq in Hi; subst i.
      apply String.eqb_neq in Hne; rewrite String.eqb_sym, Hne; reflexivity.
    + destruct (String.eqb i id'); [reflexivity|exact IH].
Qed.

(* ------------------------------------------------------------------ *)
(** ** Index frame: a batch only writes the keys of its records *)

Section Frame.

Variable ok : string -> Prop.

Lemma frame_same {A} (m : M A) :
  (forall s r s', m s = Some (r, s') -> index s' = index s) -> index_only ok m.
Proof. intros H s r s' Hm id _; rewrite (H _ _ _ Hm); reflexivity. Qed.

Lemma frame_ret {A} (a : A) : index_only ok (ret a).
Proof. apply frame_same; intros s r s' H; injection H as _ <-; reflexivity. Qed.

Lemma frame_lift {A} (x : res A) : index_only ok (lift x).
Proof. apply frame_same; intros s r s' H; injection H as _ <-; reflexivity. Qed.

Lemma frame_diverge {A} : index_only ok (@diverge A).
Proof. intros s r s' H; discriminate H. Qed.

Lemma frame_emit c : index_only ok (emit c).
Proof. apply frame_same; intros s r s' H; injection H as _ <-; reflexivity. Qed.

Lemma frame_get_analysis E job tok : index_only ok (get_document_analysis E job tok).
Proof. apply frame_same; intros s r s' H; injection H as _ <-; reflexivity. Qed.

Lemma frame_index E id d : ok id -> index_only ok (opensearch_index E id d).
Proof.
  intros Hid s r s' H id' Hid'; unfold opensearch_index in H.
  destruct (os_index E id d); injection H as _ <-; simpl; [|reflexivity].
  apply lookup_upsert_other; congruence.
Qed.

Lemma frame_bind {A B} (m : M A) (k : A -> M B) :
  index_only ok m -> (forall a, index_only ok (k a)) -> index_only ok (bind m k).
Proof.
  intros Hm Hk s r s' H id Hid; unfold bind in H.
  destruct (m s) as [[[a|e] s1]|] eqn:Hs; try discriminate.
  - rewrite (Hk a _ _ _ H id Hid); exact (Hm _ _ _ Hs id Hid).
  - injection H as _ <-; exact (Hm _ _ _ Hs id Hid).
Qed.

Lemma frame_try {A} (m : M A) (h : string -> M A) :
  index_only ok m -> (forall e, index_only ok (h e)) -> index_only ok (try_except m h).
Proof.
  intros Hm Hh s r s' H id Hid; unfold try_except in H.
  destruct (m s) as [[[a|e] s1]|] eqn:Hs; try discriminate.
  - injection H as _ <-; exact (Hm _ _ _ Hs id Hid).
  - rewrite (Hh e _ _ _ H id Hid); exact (Hm _ _ _ Hs id Hid).
Qed.

End Frame.

Lemma frame_weaken {A} (ok ok' : string -> Prop) (m : M A) :
  (forall id, ~ ok' id -> ~ ok id) -> index_only ok m -> index_only ok' m.
Proof. intros Hw Hm s r s' H id Hid; apply (Hm _ _ _ H); auto. Qed.

Ltac frame_step :=
  intros;
  match goal with
  | |- index_only _ (bind _ _) => apply frame_bind
  | |- index_only _ (try_except _ _) => apply frame_try
  | |- index_only _ (if ?b then _ else _) => destruct b
  | |- index_only _ (let '(_, _) := ?p in _) => destruct p as [[? ?] ?]
  | |- index_only _ (match ?x with Some _ => _ | None => _ end) => destruct x
  | |- index_only _ (ret _) => apply frame_ret
  | |- index_only _ (lift _) => apply frame_lift
  | |- index_only _ (emit _) => apply frame_emit
  | |- index_only _ diverge => apply frame_diverge
  | |- index_only _ (get_document_analysis _ _ _) => apply frame_get_analysis
  | |- index_only _ (opensearch_index _ _ _) => apply frame_index
  end.

Lemma poll_loop_frame ok E fuel job : index_only ok (poll_loop E fuel job).
Proof. induction fuel; simpl; repeat (frame_step || (intros; assumption)). Qed.

Lemma page_loop_frame ok E fuel job next acc : index_only ok (page_loop E fuel job next acc).
Proof.
  revert next acc; induction fuel; intros; simpl; repeat (frame_step || (intros; apply IHfuel)).
Qed.

Lemma extract_text_from_file_frame ok E fuel bucket key :
  index_only ok (extract_text_from_file E fuel bucket key).
Proof.
  unfold extract_text_from_file, extract_try, new_client, extract_text_from_docx,
    textract_fallback, analyze_document, start_document_analysis, get_object,
    run_pandoc; cbv zeta.
  repeat (frame_step || (intros; apply poll_loop_frame) || (intros; apply page_loop_frame)).
Qed.

Lemma process_records_frame E fuel records :
  index_only (fun id => In id (map snd records)) (process_records E fuel records).
Proof.
  induction records as [|[bucket key] rs IH]; simpl; [apply frame_ret|].
  apply frame_bind.
  - unfold process_record, new_client, head_object.
    repeat (frame_step || (intros; apply extract_text_from_file_frame)); simpl; auto.
  - intros _; refine (frame_weaken _ _ _ _ IH); simpl; tauto.
Qed.

(** X5.  Running the handler on a batch changes no index entry whose id is
    not the key of one of the batch's records. *)
Theorem handler_writes_only_batch_keys E fuel records s r s' id :
  lambda_handler E fuel records s = Some (r, s') ->
  ~ In id (map snd records) ->
  lookup_doc id (index s') = lookup_doc id (index s).
Proof.
  intros H Hid; unfold lambda_handler in H.
  refine (frame_try (fun k => In k (map snd records)) _ _ _ _ s r s' H id Hid).
  - apply frame_bind; [apply process_records_frame|intros; apply frame_ret].
  - intros; apply frame_ret.
Qed.

(* ------------------------------------------------------------------ *)
(** ** Branches of [extract_text_from_file] and of the record loop *)

(** X6.  A [.txt], [.json] or [.md] key makes exactly one call, the
    [get_object] of the raw key; the text is the decoded body, or the
    message of the exception raised by the read or by the decoding. *)
Theorem text_file_single_read E fuel bucket key s :
  boto_client E 70 "textract" = Ok tt ->
  boto_client E 71 "s3" = Ok tt ->
  py_in (file_ext_of (unquote_plus key)) text_exts = true ->
  extract_text_from_file E fuel bucket key s =
  Some (Ok (match s3_get_object E bucket key with
            | Ok body => match utf8_decode E body with Ok t => t | Exc e => e end
            | Exc e => e
            end),
        push (GetObject bucket key) s).
Proof.
  intros H70 H71 H; rewrite (extract_text_from_file_try E fuel bucket key s H70 H71).
  unfold extract_try, try_except, get_object, bind, emit, lift, ret; cbv zeta; rewrite H.
  destruct (s3_get_object E bucket key) as [body|e]; [destruct (utf8_decode E body)|];
    reflexivity.
Qed.

(** X7.  For a [.pdf] or image key, an exception from
    [start_document_analysis] is not propagated: its message becomes the
    extracted text, after that single call. *)
Theorem start_error_becomes_text E fuel bucket key s e :
  boto_client E 70 "textract" = Ok tt ->
  boto_client E 71 "s3" = Ok tt ->
  py_in (file_ext_of (unquote_plus key)) text_exts = false ->
  py_in (file_ext_of (unquote_plus key)) office_exts = false ->
  py_in (file_ext_of (unquote_plus key)) image_exts = true ->
  tx_start E bucket key = Exc e ->
  extract_text_from_file E fuel bucket key s = Some (Ok e, push (StartAnalysis bucket key) s).
Proof.
  intros H70 H71 H1 H2 H3 He; rewrite (extract_text_from_file_try E fuel bucket key s H70 H71).
  unfold extract_try; cbv zeta; rewrite H1, H2, H3.
  unfold try_except, analyze_document, start_document_analysis, bind, emit, lift;
    rewrite He; reflexivity.
Qed.

(** X8.  A key whose extension is in none of the lists makes no call
    at all once the clients are built: the text is ["Unsupported file
    type: "] followed by the extension, and the state is unchanged. *)
Theorem extract_unsupported_no_call E fuel bucket key s :
  boto_client E 70 "textract" = Ok tt ->
  boto_client E 71 "s3" = Ok tt ->
  py_in (file_ext_of (unquote_plus key)) text_exts = false ->
  py_in (file_ext_of (unquote_plus key)) office_exts = false ->
  py_in (file_ext_of (unquote_plus key)) image_exts = false ->
  extract_text_from_file E fuel bucket key s
  = Some (Ok ("Unsupported file type: " ++ file_ext_of (unquote_plus key)), s).
Proof.
  intros H70 H71 H1 H2 H3; rewrite (extract_text_from_file_try E fuel bucket key s H70 H71).
  apply extract_try_unsupported; assumption.
Qed.

(** X9.  A page whose [NextToken] is the empty string is not treated as
    the last page: [if next_token:] then requests the first page again, so
    when every first-page answer carries [NextToken = ""] the page loop
    never ends. *)
Theorem empty_next_token_never_ends E fuel job tok acc s :
  token_arg tok = None ->
  (forall n, exists p, tx_get E n job None = Ok p /\ next_token p = Some EmptyString) ->
  page_loop E fuel job tok acc s = None.
Proof.
  intros Htok Hget; revert tok acc s Htok; induction fuel as [|fuel IH];
    intros tok acc s Htok; [reflexivity|].
  simpl; unfold bind, get_document_analysis; rewrite Htok.
  destruct (Hget (gets s)) as [p [Hp Hn]]; rewrite Hp; cbv beta; rewrite Hn.
  apply IH; reflexivity.
Qed.

(* ------------------------------------------------------------------ *)
(** ** Instances of the properties above *)

Lemma handler_writes_only_batch_keys_witness :
  exists r s',
    lambda_handler env0 5 [("docs", "r1.txt")]
      (mkSt [] 0 [("old.txt", make_document env0 "old.txt" "kept" "t")]) = Some (r, s') /\
    lookup_doc "old.txt" (index s') = Some (make_document env0 "old.txt" "kept" "t").
Proof.
  do 2 eexists; split; [vm_compute; reflexivity|].
  eapply (handler_writes_only_batch_keys env0 5 [("docs", "r1.txt")]
           (mkSt [] 0 [("old.txt", make_document env0 "old.txt" "kept" "t")]) _ _ "old.txt").
  - vm_compute; reflexivity.
  - simpl; intros [H|H]; [discriminate H|exact H].
Defined.

Lemma text_file_single_read_witness :
  extract_text_from_file env0 5 "docs" "notes.md" st0
  = Some (Ok "body", push (GetObject "docs" "notes.md") st0).
Proof. apply (text_file_single_read env0 5 "docs" "notes.md" st0); vm_compute; reflexivity. Defined.

Lemma extract_unsupported_no_call_witness :
  extract_text_from_file env0 5 "docs" "archive.tar.gz" st0
  = Some (Ok "Unsupported file type: gz", st0).
Proof. apply (extract_unsupported_no_call env0 5 "docs" "archive.tar.gz" st0); reflexivity. Defined.

Lemma start_error_becomes_text_witness :
  extract_text_from_file env_nostart 5 "docs" "scan.pdf" st0
  = Some (Ok "ProvisionedThroughputExceededException", push (StartAnalysis "docs" "scan.pdf") st0).
Proof. apply start_error_becomes_text; vm_compute; reflexivity. Defined.

Lemma empty_next_token_never_ends_witness :
  page_loop env_emptytok 50 "job1" None [] st0 = None.
Proof.
  apply (empty_next_token_never_ends env_emptytok 50 "job1" None [] st0 eq_refl).
  intros n; eexists; split; reflexivity.
Defined.

(* ------------------------------------------------------------------ *)
(** ** Sequencing of a batch *)


(* ------------------------------------------------------------------ *)
(** ** The Textract branch reads no object bytes *)

Section NoRead.

Variable P : call -> Prop.
Hypothesis P_get : forall job tok, P (GetAnalysis job tok).
Hypothesis P_sleep : P (Sleep 3).

Lemma poll_loop_keeps_gen E fuel job : keeps P (poll_loop E fuel job).
Proof.
  induction fuel as [|fuel IH]; simpl; [apply keeps_diverge|].
  repeat (keeps_step || (intros; apply IH)); auto.
Qed.

Lemma page_loop_keeps_gen E fuel job next acc : keeps P (page_loop E fuel job next acc).
Proof.
  revert next acc; induction fuel as [|fuel IH]; intros next acc; simpl;
    [apply keeps_diverge|].
  repeat (keeps_step || (intros; apply IH)); auto.
Qed.

End NoRead.

(** X11.  For a [.pdf] or image key, [extract_text_from_file] neither
    downloads the object with [get_object] nor runs pandoc: Textract reads
    the object from S3 itself. *)
Theorem image_branch_never_reads_object E fuel bucket key :
  py_in (file_ext_of (unquote_plus key)) text_exts = false ->
  py_in (file_ext_of (unquote_plus key)) office_exts = false ->
  py_in (file_ext_of (unquote_plus key)) image_exts = true ->
  keeps (fun c => reads_object c = false) (extract_text_from_file E fuel bucket key).
Proof.
  intros H1 H2 H3; unfold extract_text_from_file, new_client, extract_try; cbv zeta.
  rewrite H1, H2, H3; unfold analyze_document, start_document_analysis.
  repeat (keeps_step
          || (intros; apply poll_loop_keeps_gen)
          || (intros; apply page_loop_keeps_gen)); reflexivity.
Qed.

(* ------------------------------------------------------------------ *)
(** ** [generate_response] for any [max_retries] *)

Lemma attempts_from_one a : AiHandler.attempts_from a 1 = [AiSearch.Invoke a].
Proof. reflexivity. Qed.

Lemma attempts_from_step a k :
  AiHandler.attempts_from a (S (S k))
  = AiSearch.Invoke a :: AiSearch.Backoff (2 ^ a) :: AiHandler.attempts_from (S a) (S k).
Proof. unfold AiHandler.attempts_from; simpl; rewrite Nat.sub_0_r; reflexivity. Qed.

Lemma retry_loop_cases invoke n a r :
  a + r = n -> 1 <= r ->
  let '(res, evs) := AiSearch.retry_loop invoke n a r in
  (exists i c, a <= i < n /\ (forall j, a <= j < i -> AiSearch.caught (invoke j) = true) /\
     invoke i = AiSearch.Body c /\ res = Ok (AiSearch.parse_body c) /\
     evs = AiHandler.attempts_from a (S i - a)) \/
  ((forall j, a <= j < n -> AiSearch.caught (invoke j) = true) /\
     res = Ok "Error generating response from Bedrock." /\
     evs = AiHandler.attempts_from a r) \/
  (exists i m, a <= i < n /\ (forall j, a <= j < i -> AiSearch.caught (invoke j) = true) /\
     invoke i = AiSearch.OtherError m /\ res = Exc m /\
     evs = AiHandler.attempts_from a (S i - a)).
Proof.
  revert a; induction r as [|r IH]; intros a Hn Hr; [lia|]; cbn [AiSearch.retry_loop].
  destruct (invoke a) as [c|m|m|m] eqn:Ha.
  - left; exists a, c; repeat split; try lia; auto.
    replace (S a - a) with 1 by lia; reflexivity.
  - destruct (Nat.eqb_spec a (n - 1)) as [Hlast|Hlast].
    + right; left; repeat split.
      * intros j Hj; replace j with a by lia; rewrite Ha; reflexivity.
      * replace r with 0 by lia; reflexivity.
    + specialize (IH (S a) ltac:(lia) ltac:(lia)).
      destruct (AiSearch.retry_loop invoke n (S a) r) as [res evs].
      destruct r as [|r]; [lia|].
      destruct IH as [[i [c' [Hi [Hc [Hb [-> ->]]]]]]|[[Hc [-> ->]]|[i [m' [Hi [Hc [Hb [-> ->]]]]]]]].
      * left; exists i, c'; repeat split; try lia; auto.
        -- intros j Hj; destruct (Nat.eq_dec j a) as [->|]; [rewrite Ha; reflexivity|apply Hc; lia].
        -- replace (S i - a) with (S (S (i - S a))) by lia.
           replace (S i - S a) with (S (i - S a)) by lia;
           rewrite attempts_from_step; reflexivity.
      * right; left; repeat split; auto.
        -- intros j Hj; destruct (Nat.eq_dec j a) as [->|]; [rewrite Ha; reflexivity|apply Hc; lia].
        -- rewrite attempts_from_step; reflexivity.
      * right; right; exists i, m'; repeat split; try lia; auto.
        -- intros j Hj; destruct (Nat.eq_dec j a) as [->|]; [rewrite Ha; reflexivity|apply Hc; lia].
        -- replace (S i - a) with (S (S (i - S a))) by lia.
           replace (S i - S a) with (S (i - S a)) by lia;
           rewrite attempts_from_step; reflexivity.
  - destruct (Nat.eqb_spec a (n - 1)) as [Hlast|Hlast].
    + right; left; repeat split.
      * intros j Hj; replace j with a by lia; rewrite Ha; reflexivity.
      * replace r with 0 by lia; reflexivity.
    + specialize (IH (S a) ltac:(lia) ltac:(lia)).
      destruct (AiSearch.retry_loop invoke n (S a) r) as [res evs].
      destruct r as [|r]; [lia|].
      destruct IH as [[i [c' [Hi [Hc [Hb [-> ->]]]]]]|[[Hc [-> ->]]|[i [m' [Hi [Hc [Hb [-> ->]]]]]]]].
      * left; exists i, c'; repeat split; try lia; auto.
        -- intros j Hj; destruct (Nat.eq_dec j a) as [->|]; [rewrite Ha; reflexivity|apply Hc; lia].
        -- replace (S i - a) with (S (S (i - S a))) by lia.
           replace (S i - S a) with (S (i - S a)) by lia;
           rewrite attempts_from_step; reflexivity.
      * right; left; repeat split; auto.
        -- intros j Hj; destruct (Nat.eq_dec j a) as [->|]; [rewrite Ha; reflexivity|apply Hc; lia].
        -- rewrite attempts_from_step; reflexivity.
      * right; right; exists i, m'; repeat split; try lia; auto.
        -- intros j Hj; destruct (Nat.eq_dec j a) as [->|]; [rewrite Ha; reflexivity|apply Hc; lia].
        -- replace (S i - a) with (S (S (i - S a))) by lia.
           replace (S i - S a) with (S (i - S a)) by lia;
           rewrite attempts_from_step; reflexivity.
  - right; right; exists a, m; repeat split; try lia; auto.
    replace (S a - a) with 1 by lia; reflexivity.
Qed.

(** X12.  For any [max_retries = n >= 1] and hits that all carry a
    ['_source'], [generate_response] ends in one of three ways: the parsed
    body of the first attempt that returns one, after attempts that all
    raised a caught error; the string ["Error generating response from
    Bedrock."] after [n] caught errors; or the first uncaught exception,
    raised.  In each case the events are the attempts made, with the
    backoff before each retry.  The final [return] (line 103) is never
    reached. *)
Theorem generate_response_outcome invoke docs n :
  docs <> [] ->
  existsb (fun d => match d with None => true | Some _ => false end) docs = false ->
  1 <= n ->
  let '(res, evs) := AiSearch.generate_response invoke docs n in
  (exists i c, i < n /\ (forall j, j < i -> AiSearch.caught (invoke j) = true) /\
     invoke i = AiSearch.Body c /\ res = Ok (AiSearch.parse_body c) /\
     evs = AiHandler.attempts_from 0 (S i)) \/
  ((forall j, j < n -> AiSearch.caught (invoke j) = true) /\
     res = Ok "Error generating response from Bedrock." /\
     evs = AiHandler.attempts_from 0 n) \/
  (exists i m, i < n /\ (forall j, j < i -> AiSearch.caught (invoke j) = true) /\
     invoke i = AiSearch.OtherError m /\ res = Exc m /\
     evs = AiHandler.attempts_from 0 (S i)).
Proof.
  intros Hne Hsrc Hn; unfold AiSearch.generate_response.
  destruct docs as [|d ds]; [congruence|]; rewrite Hsrc.
  pose proof (retry_loop_cases invoke n 0 n eq_refl Hn) as H.
  destruct (AiSearch.retry_loop invoke n 0 n) as [res evs].
  destruct H as [[i [c [Hi [Hc [Hb [Hr He]]]]]]|[[Hc [Hr He]]|[i [m [Hi [Hc [Hb [Hr He]]]]]]]].
  - left; exists i, c; rewrite Nat.sub_0_r in He; repeat split; try lia; auto.
    intros j Hj; apply Hc; lia.
  - right; left; repeat split; auto; intros j Hj; apply Hc; lia.
  - right; right; exists i, m; rewrite Nat.sub_0_r in He; repeat split; try lia; auto.
    intros j Hj; apply Hc; lia.
Qed.

(* ------------------------------------------------------------------ *)
(** ** [lambda_handler] of the AI search lambda *)

Lemma retry_loop_invokes invoke n a r :
  length (filter AiHandler.is_invoke (map AiHandler.Gen (snd (AiSearch.retry_loop invoke n a r))))
  <= r.
Proof.
  revert a; induction r as [|r IH]; intros a; simpl; [lia|].
  destruct (invoke a); simpl; try lia.
  - destruct (Nat.eqb a (n - 1)); simpl; [lia|].
    specialize (IH (S a)); destruct (AiSearch.retry_loop invoke n (S a) r); simpl in *; lia.
  - destruct (Nat.eqb a (n - 1)); simpl; [lia|].
    specialize (IH (S a)); destruct (AiSearch.retry_loop invoke n (S a) r); simpl in *; lia.
Qed.

Lemma generate_response_invokes invoke docs n :
  length (filter AiHandler.is_invoke
            (map AiHandler.Gen (snd (AiSearch.generate_response invoke docs n)))) <= n.
Proof.
  unfold AiSearch.generate_response; destruct docs as [|d ds]; [simpl; lia|].
  destruct (existsb _ (d :: ds)); [simpl; lia|apply retry_loop_invokes].
Qed.

Lemma gen_no_search evs : filter AiHandler.is_search (map AiHandler.Gen evs) = [].
Proof. induction evs; simpl; auto. Qed.

(** X13.  The handler answers 200, 400 or 500; it searches at most once and
    calls the model at most three times. *)
Theorem ai_handler_bounded parse client search invoke body :
  let '((code, _), calls) := AiHandler.lambda_handler parse client search invoke body in
  (code = 200 \/ code = 400 \/ code = 500)%Z /\
  length (filter AiHandler.is_search calls) <= 1 /\
  length (filter AiHandler.is_invoke calls) <= 3.
Proof.
  unfold AiHandler.lambda_handler.
  destruct body as [b|]; [|repeat split; auto; simpl; lia].
  destruct (negb (py_truthy b)); [repeat split; auto; simpl; lia|].
  destruct (parse b) as [q|e]; [|repeat split; auto; simpl; lia].
  destruct (negb (py_truthy _)); [repeat split; auto; simpl; lia|].
  destruct client; [|repeat split; auto; simpl; lia].
  destruct (AiHandler.retrieve_docs search _ 5) as [docs|e]; [|repeat split; auto; simpl; lia].
  pose proof (generate_response_invokes invoke docs 3) as Hi.
  destruct (AiSearch.generate_response invoke docs 3) as [[r|e] evs]; simpl in *;
    rewrite gen_no_search; repeat split; auto; simpl; lia.
Qed.

(** X14.  The handler answers 400 exactly when the request body is missing
    or empty, or parses to an object whose ["query"] is missing or empty;
    it then calls neither OpenSearch nor the model. *)
Theorem ai_handler_400_iff_invalid parse client search invoke body :
  (fst (fst (AiHandler.lambda_handler parse client search invoke body)) = 400%Z <->
   forall b, body = Some b -> py_truthy b = true ->
     exists q, parse b = Ok q /\
               py_truthy (match q with Some x => x | None => EmptyString end) = false) /\
  (fst (fst (AiHandler.lambda_handler parse client search invoke body)) = 400%Z ->
   snd (AiHandler.lambda_handler parse client search invoke body) = []).
Proof.
  unfold AiHandler.lambda_handler.
  destruct body as [b|]; [|split; [split; [intros _ b H; discriminate H|reflexivity]|reflexivity]].
  destruct (py_truthy b) eqn:Hb; simpl;
    [|split; [split; [intros _ b' H; injection H as <-; congruence|reflexivity]|reflexivity]].
  destruct (parse b) as [q|e] eqn:Hp.
  - destruct (py_truthy (match q with Some x => x | None => EmptyString end)) eqn:Hq; simpl.
    + assert (Hnot : ~ (forall b', Some b = Some b' -> py_truthy b' = true ->
                        exists q', parse b' = Ok q' /\
                          py_truthy (match q' with Some x => x | None => EmptyString end) = false)).
      { intros H; destruct (H b eq_refl Hb) as [q' [Hq' Hf]].
        rewrite Hp in Hq'; injection Hq' as <-; congruence. }
      destruct client; [|split; [split; [discriminate|tauto]|discriminate]].
      destruct (AiHandler.retrieve_docs search _ 5); [|split; [split; [discriminate|tauto]|discriminate]].
      destruct (AiSearch.generate_response invoke _ 3) as [[r|e] evs]; simpl;
        (split; [split; [discriminate|tauto]|discriminate]).
    + split; [split; [intros _ b' H _; injection H as <-; exists q; auto|reflexivity]|reflexivity].
  - simpl; split; [split; [discriminate|]|discriminate].
    intros H; destruct (H b eq_refl Hb) as [q' [Hq' _]]; congruence.
Qed.

(** X15.  When the search raises an [OpenSearchException], the handler
    still answers 200, with no sources and the reply ["No relevant
    documents found."], without calling the model. *)
Theorem search_failure_answers_no_docs parse client search invoke b q u m :
  py_truthy b = true -> parse b = Ok (Some q) -> py_truthy q = true ->
  client = Ok u -> search q 5 = AiHandler.OpenSearchException m ->
  AiHandler.lambda_handler parse client search invoke (Some b)
  = ((200%Z, AiHandler.AnswerReply q "No relevant documents found." []),
     [AiHandler.Search q 5]).
Proof.
  intros Hb Hp Hq Hc Hs; unfold AiHandler.lambda_handler, AiHandler.retrieve_docs.
  rewrite Hb, Hp, Hq, Hc, Hs; reflexivity.
Qed.

(** X16.  A search hit without ['_source'] makes the handler answer 500
    with the [KeyError] message, after the search and before any model
    call. *)
Theorem hit_without_source_fails parse client search invoke b q u hs :
  py_truthy b = true -> parse b = Ok (Some q) -> py_truthy q = true ->
  client = Ok u -> search q 5 = AiHandler.Hits hs -> In None hs ->
  AiHandler.lambda_handler parse client search invoke (Some b)
  = ((500%Z, AiHandler.ErrorReply "'_source'"), [AiHandler.Search q 5]).
Proof.
  intros Hb Hp Hq Hc Hs Hin; unfold AiHandler.lambda_handler, AiHandler.retrieve_docs.
  rewrite Hb, Hp, Hq, Hc, Hs; simpl.
  unfold AiSearch.generate_response.
  destruct hs as [|h hs]; [destruct Hin|].
  assert (Hex : existsb (fun d => match d with None => true | Some _ => false end) (h :: hs) = true).
  { apply existsb_exists; exists None; auto. }
  rewrite Hex; reflexivity.
Qed.

Lemma image_branch_never_reads_object_witness :
  keeps (fun c => reads_object c = false) (extract_text_from_file env0 5 "docs" "scan.pdf").
Proof. apply image_branch_never_reads_object; vm_compute; reflexivity. Defined.

Lemma generate_response_outcome_witness :
  let '(res, evs) := AiSearch.generate_response AiHandler.invoke_throttled [Some AiSearch.src0] 5 in
  (exists i c, i < 5 /\ (forall j, j < i -> AiSearch.caught (AiHandler.invoke_throttled j) = true) /\
     AiHandler.invoke_throttled i = AiSearch.Body c /\ res = Ok (AiSearch.parse_body c) /\
     evs = AiHandler.attempts_from 0 (S i)) \/
  ((forall j, j < 5 -> AiSearch.caught (AiHandler.invoke_throttled j) = true) /\
     res = Ok "Error generating response from Bedrock." /\
     evs = AiHandler.attempts_from 0 5) \/
  (exists i m, i < 5 /\ (forall j, j < i -> AiSearch.caught (AiHandler.invoke_throttled j) = true) /\
     AiHandler.invoke_throttled i = AiSearch.OtherError m /\ res = Exc m /\
     evs = AiHandler.attempts_from 0 (S i)).
Proof.
  apply (generate_response_outcome AiHandler.invoke_throttled [Some AiSearch.src0] 5);
    [discriminate|reflexivity|lia].
Defined.

Lemma ai_handler_400_iff_invalid_witness :
  fst (fst (AiHandler.lambda_handler AiHandler.parse0 (Ok tt) AiHandler.search_down
              AiHandler.invoke_throttled (Some "{}"))) = 400%Z /\
  snd (AiHandler.lambda_handler AiHandler.parse0 (Ok tt) AiHandler.search_down
         AiHandler.invoke_throttled (Some "{}")) = [].
Proof.
  destruct (ai_handler_400_iff_invalid AiHandler.parse0 (Ok tt) AiHandler.search_down
              AiHandler.invoke_throttled (Some "{}")) as [[_ Hinv] Hnil].
  assert (H400 : fst (fst (AiHandler.lambda_handler AiHandler.parse0 (Ok tt) AiHandler.search_down
                             AiHandler.invoke_throttled (Some "{}"))) = 400%Z).
  { apply Hinv; intros b Hb _; injection Hb as <-; exists None; split; reflexivity. }
  split; [exact H400|exact (Hnil H400)].
Defined.

Lemma search_failure_answers_no_docs_witness :
  AiHandler.lambda_handler AiHandler.parse0 (Ok tt) AiHandler.search_down
    AiHandler.invoke_throttled (Some "body")
  = ((200%Z, AiHandler.AnswerReply "revenue" "No relevant documents found." []),
     [AiHandler.Search "revenue" 5]).
Proof.
  apply (search_failure_answers_no_docs _ _ _ _ "body" "revenue" tt "ConnectionTimeout");
    reflexivity.
Defined.

Lemma hit_without_source_fails_witness :
  AiHandler.lambda_handler AiHandler.parse0 (Ok tt) AiHandler.search_nosource
    AiHandler.invoke_throttled (Some "body")
  = ((500%Z, AiHandler.ErrorReply "'_source'"), [AiHandler.Search "revenue" 5]).
Proof.
  apply (hit_without_source_fails _ _ _ _ "body" "revenue" tt [Some AiSearch.src0; None]);
    try reflexivity.
  simpl; auto.
Defined.
